(** * SKU to MSKU mapper: a shallow embedding of [SKUMapper]

    The development follows the class [SKUMapper] of the warehouse
    utility: [load_mapping], [identify_and_map_sku],
    [handle_combo_products] and [process_sales_data], and then the
    handlers of the Tk front end ([WMSApp]), which forward file paths and
    tables to these methods.

    Conventions.
    - A table cell is a [value]: [None], the missing-value marker [NaN]
      that pandas stores for an empty field, a text, or an integer.
      Both [None] and [NaN] are nulls for [pd.isna].  Where pandas would
      store a returned [None] as [NaN] (a column without any text), the
      embedding keeps the [None] the function returned.  Columns of
      floating-point numbers are not covered, except for what becomes of
      their empty cells as dict keys (see [index_keys]).
    - Text is a [string] of code points below 128; on those, [upper] and
      [strip] below are Python's [str.upper] and [str.strip].
    - [sku_to_msku_map] is a Python [dict], here a [gmap value value].
    - A [DataFrame] is held column by column, as the code reads and
      writes it ([df[c]], [df[c] = ...]).
    - The methods write to the [logging] module; the records they emit
      are collected in order, next to the value they compute. *)

From Stdlib Require Import ZArith String Ascii DecimalString.
From stdpp Require Import base tactics option list strings gmap fin_maps.

Local Open Scope string_scope.
Local Open Scope list_scope.

(** ** Python values held in table cells *)

(** [VNaN] is [np.nan], the one object pandas stores for every empty
    field.  [VNaNBoxed id] is a float nan that is an object of its own,
    as Python makes one each time it takes an element out of a column of
    floats; [id] is its identity.  A nan is not equal to itself, so a
    [dict] tells nan keys apart by identity: [np.nan] is one key however
    often it is stored, and every boxed nan is a key of its own. *)
Inductive value : Type :=
  | VNone
  | VNaN
  | VStr (s : string)
  | VInt (z : Z)
  | VNaNBoxed (id : nat).

#[global] Instance value_eq_dec : EqDecision value.
Proof. solve_decision. Defined.

Definition value_encode (v : value) : unit + unit + string + Z + nat :=
  match v with
  | VNone => inl (inl (inl (inl tt)))
  | VNaN => inl (inl (inl (inr tt)))
  | VStr s => inl (inl (inr s))
  | VInt z => inl (inr z)
  | VNaNBoxed id => inr id
  end.

Definition value_decode (x : unit + unit + string + Z + nat) : value :=
  match x with
  | inl (inl (inl (inl _))) => VNone
  | inl (inl (inl (inr _))) => VNaN
  | inl (inl (inr s)) => VStr s
  | inl (inr z) => VInt z
  | inr id => VNaNBoxed id
  end.

#[global] Instance value_countable : Countable value.
Proof.
  refine (inj_countable' value_encode value_decode _).
  by intros [].
Defined.

(** [pd.isna] on a scalar. *)
Definition pd_isna (v : value) : bool :=
  match v with
  | VNone | VNaN | VNaNBoxed _ => true
  | VStr _ | VInt _ => false
  end.

(** [str(v)]. *)
Definition py_str (v : value) : string :=
  match v with
  | VNone => "None"
  | VNaN | VNaNBoxed _ => "nan"
  | VStr s => s
  | VInt z => NilEmpty.string_of_int (Z.to_int z)
  end.

(** ** Text operations *)

(** [str.isspace] on one character: tab to carriage return, the four
    separators 28 to 31, and the blank. *)
Definition isspace (c : ascii) : bool :=
  let n := nat_of_ascii c in
  ((9 <=? n)%nat && (n <=? 13)%nat) || ((28 <=? n)%nat && (n <=? 32)%nat).

Fixpoint lstrip (s : string) : string :=
  match s with
  | EmptyString => EmptyString
  | String c s' => if isspace c then lstrip s' else s
  end.

Fixpoint rstrip (s : string) : string :=
  match s with
  | EmptyString => EmptyString
  | String c s' =>
      match rstrip s' with
      | EmptyString => if isspace c then EmptyString else String c EmptyString
      | r => String c r
      end
  end.

Definition strip (s : string) : string := rstrip (lstrip s).

Definition upper_char (c : ascii) : ascii :=
  let n := nat_of_ascii c in
  if (97 <=? n)%nat && (n <=? 122)%nat then ascii_of_nat (n - 32) else c.

Fixpoint upper (s : string) : string :=
  match s with
  | EmptyString => EmptyString
  | String c s' => String (upper_char c) (upper s')
  end.

(** [s.startswith(p)]. *)
Definition startswith (s p : string) : bool := String.prefix p s.

(** [str(sku).strip().upper()], the normal form used by both the
    resolver and the combo classifier. *)
Definition clean (v : value) : string := upper (strip (py_str v)).

(** ** The [logging] stream *)

Inductive level : Type := INFO | WARNING | ERROR.

#[global] Instance level_eq_dec : EqDecision level.
Proof. solve_decision. Defined.

Definition log_record : Type := level * string.

(** A computation that emits log records while producing [val]. *)
Record Logged (A : Type) : Type := MkLogged { val : A; out : list log_record }.
Arguments MkLogged {A} val out.
Arguments val {A} _.
Arguments out {A} _.

#[global] Instance Logged_ret : MRet Logged := λ A a, MkLogged a [].
#[global] Instance Logged_bind : MBind Logged := λ A B k m,
  let r := k (val m) in MkLogged (val r) (out m ++ out r).

Definition logging (l : level) (msg : string) : Logged unit := MkLogged tt [(l, msg)].

(** [Series.apply(f)]: [f] runs on the cells from the first row to the
    last. *)
Fixpoint Series_apply {A B : Type} (f : A → Logged B) (cells : list A) : Logged (list B) :=
  match cells with
  | [] => mret []
  | x :: rest => y ← f x; ys ← Series_apply f rest; mret (y :: ys)
  end.

(** ** Exceptions *)

Inductive exn : Type :=
  | ValueError (msg : string)
  | FileNotFoundError (msg : string)
  | KeyError (key : string).

Inductive result (A : Type) : Type :=
  | Return (a : A)
  | Raise (e : exn).
Arguments Return {A} a.
Arguments Raise {A} e.

(** ** Tables *)

(** [index_size] is [len(df.index)], the number of rows; [data] lists the
    columns in their order, each with one cell per row. *)
Record DataFrame : Type := MkDataFrame {
  index_size : nat;
  data : list (string * list value)
}.

#[global] Instance DataFrame_eq_dec : EqDecision DataFrame.
Proof. solve_decision. Defined.

(** [df.columns]. *)
Definition columns (df : DataFrame) : list string := (data df).*1.

(** [c in df.columns]. *)
Definition has_column (c : string) (df : DataFrame) : bool :=
  bool_decide (c ∈ columns df).

Fixpoint assoc (c : string) (cols : list (string * list value)) : option (list value) :=
  match cols with
  | [] => None
  | (c', cells) :: rest => if decide (c' = c) then Some cells else assoc c rest
  end.

(** [df[c]]: the cells of column [c], or [None] when [c] is not in
    [df.columns] (where pandas raises [KeyError]). *)
Definition getitem (c : string) (df : DataFrame) : option (list value) :=
  assoc c (data df).

Fixpoint assign (c : string) (cells : list value) (cols : list (string * list value))
  : list (string * list value) :=
  match cols with
  | [] => [(c, cells)]
  | (c', old) :: rest =>
      if decide (c' = c) then (c', cells) :: rest else (c', old) :: assign c cells rest
  end.

(** [df[c] = cells]: the column is overwritten where it stands, or added
    after the last column when the table has none of that name. *)
Definition setitem (c : string) (cells : list value) (df : DataFrame) : DataFrame :=
  MkDataFrame (index_size df) (assign c cells (data df)).

(** The cell of column [c] in row [i]. *)
Definition cell (c : string) (i : nat) (df : DataFrame) : option value :=
  cells ← getitem c df; cells !! i.

(** A table as pandas builds it: column labels are distinct and every
    column has one cell per row. *)
Definition well_formed (df : DataFrame) : bool :=
  bool_decide (NoDup (columns df)) &&
  forallb (λ col, bool_decide (length col.2 = index_size df)) (data df).

(** ** The mapper object *)

Record SKUMapper : Type := MkSKUMapper {
  sku_to_msku_map : gmap value value;
  processed_data : option DataFrame
}.

(** [SKUMapper()]. *)
Definition __init__ : Logged SKUMapper :=
  logging INFO "SKUMapper initialized.";; mret (MkSKUMapper ∅ None).

(** Whether a column holds numbers and empty cells only; pandas keeps
    such a column as an array of numbers, any other as an array of
    objects. *)
Definition numeric_column (cells : list value) : bool :=
  forallb (λ v, match v with VInt _ | VNaN => true | _ => false end) cells.

(** The labels of the index that [set_index('SKU')] builds from the SKU
    column, as [Series.to_dict] takes them out one by one.  From an array
    of objects it gets the objects stored, so every empty cell is the
    same [np.nan]; from an array of numbers it gets a new object for each
    element, so the empty cell of row [i] is a nan of its own. *)
Definition index_keys (cells : list value) : list value :=
  if numeric_column cells then
    imap (λ i v, match v with VNaN => VNaNBoxed i | _ => v end) cells
  else cells.

(** [dict(zip(keys, values))] as [Series.to_dict] builds it: the pairs are
    stored one after the other, a later pair replacing an earlier one
    with the same key.  Keys are the same when they are equal values,
    or the same nan object. *)
Definition to_dict (pairs : list (value * value)) : gmap value value :=
  fold_left (λ d kv, <[kv.1 := kv.2]> d) pairs ∅.

(** What [pd.read_csv(file_path)] does: it yields a table, or raises
    [FileNotFoundError], or raises some other exception with a message. *)
Inductive read_csv_outcome : Type :=
  | Parsed (df : DataFrame)
  | NotFound
  | Failed (msg : string).

Definition string_of_nat (n : nat) : string := NilEmpty.string_of_uint (Nat.to_uint n).

Section load_mapping.
Variable read_csv : string → read_csv_outcome.

(** [load_mapping(self, file_path)].  The result pairs what the call
    returns or raises with the mapper object after the call. *)
Definition load_mapping (self : SKUMapper) (file_path : string)
  : Logged (result bool * SKUMapper) :=
  if decide (file_path = "") then
    logging WARNING "No mapping file path provided.";;
    mret (Raise (ValueError "No mapping file path provided."), self)
  else
    match read_csv file_path with
    | Parsed mapping_df =>
        match getitem "SKU" mapping_df, getitem "MSKU" mapping_df with
        | Some skus, Some mskus =>
            let self' := MkSKUMapper (to_dict (zip (index_keys skus) mskus))
                                     (processed_data self) in
            logging INFO ("Loaded " +:+ string_of_nat (size (sku_to_msku_map self'))
                          +:+ " SKU to MSKU mappings from " +:+ file_path);;
            mret (Return true, self')
        | _, _ =>
            let e := "Mapping file must contain 'SKU' and 'MSKU' columns." in
            logging ERROR ("Error loading mapping file " +:+ file_path +:+ ": " +:+ e);;
            mret (Raise (ValueError ("Error loading mapping file: " +:+ e)), self)
        end
    | NotFound =>
        logging ERROR ("Mapping file not found: " +:+ file_path);;
        mret (Raise (FileNotFoundError ("Mapping file not found: " +:+ file_path)), self)
    | Failed e =>
        logging ERROR ("Error loading mapping file " +:+ file_path +:+ ": " +:+ e);;
        mret (Raise (ValueError ("Error loading mapping file: " +:+ e)), self)
    end.
End load_mapping.

(** [identify_and_map_sku(self, sku_value)]. *)
Definition identify_and_map_sku (self : SKUMapper) (sku_value : value) : Logged value :=
  if pd_isna sku_value then mret VNone
  else
    let clean_sku := clean sku_value in
    match sku_to_msku_map self !! VStr clean_sku with
    | Some msku => mret msku
    | None =>
        logging WARNING ("SKU '" +:+ py_str sku_value +:+ "' (cleaned: '" +:+ clean_sku
                         +:+ "') not found in mapping. Returning original SKU.");;
        mret sku_value
    end.

(** The inner function [_process_combo(sku)] of [handle_combo_products]. *)
Definition _process_combo (combo_prefix : string) (sku : value) : Logged value :=
  if pd_isna sku then mret sku
  else if startswith (clean sku) combo_prefix then
    logging INFO ("Identified combo product SKU: " +:+ py_str sku);;
    mret (VStr (combo_prefix +:+ "MSKU"))
  else mret sku.

(** [handle_combo_products(self, df, sku_column, combo_prefix)]; the
    method does not use [self], and the table it returns is the table it
    was given, updated in place. *)
Definition handle_combo_products (df : DataFrame) (sku_column combo_prefix : string)
  : Logged DataFrame :=
  match getitem sku_column df with
  | None =>
      logging WARNING ("SKU column '" +:+ sku_column
                       +:+ "' not found for combo product handling.");;
      mret df
  | Some skus =>
      skus' ← Series_apply (_process_combo combo_prefix) skus;
      let df := setitem sku_column skus' df in
      logging INFO "Combo product handling applied.";;
      mret df
  end.

(** [process_sales_data(self, df, sku_column, msku_column)].  The result
    pairs what the call returns or raises with the state it leaves
    behind: the mapper object and the caller's table, which the method
    updates in place.  The field [sku_to_msku_map] is only ever assigned
    a dict ([__init__], [load_mapping]), so the guard

      [self.sku_to_msku_map is None or not self.sku_to_msku_map]

    is the emptiness test; the second [df[sku_column]] is not guarded in
    the source and is given its [KeyError]. *)
Definition process_sales_data (self : SKUMapper) (df : DataFrame)
    (sku_column msku_column : string)
  : Logged (result DataFrame * (SKUMapper * DataFrame)) :=
  if decide (sku_to_msku_map self = ∅) then
    logging ERROR "SKU to MSKU mapping is not loaded. Cannot process data.";;
    mret (Raise (ValueError "SKU to MSKU mapping is not loaded."), (self, df))
  else
    match getitem sku_column df with
    | None =>
        logging ERROR ("SKU column '" +:+ sku_column +:+ "' not found in the sales data.");;
        mret (Raise (ValueError ("SKU column '" +:+ sku_column
                                 +:+ "' not found in the sales data.")), (self, df))
    | Some skus =>
        mskus ← Series_apply (identify_and_map_sku self) skus;
        let df := setitem msku_column mskus df in
        df ← handle_combo_products df sku_column "COMBO_";
        match getitem sku_column df with
        | None => mret (Raise (KeyError sku_column), (self, df))
        | Some skus =>
            mskus ← Series_apply (identify_and_map_sku self) skus;
            let df := setitem msku_column mskus df in
            let self := MkSKUMapper (sku_to_msku_map self) (Some df) in
            logging INFO "Sales data processed successfully with MSKU mapping.";;
            mret (Return df, (self, df))
        end
    end.

(** The value parts of the two cell functions. *)
Definition resolve (self : SKUMapper) (v : value) : value :=
  val (identify_and_map_sku self v).

Definition classify (v : value) : value := val (_process_combo "COMBO_" v).

(** The table after each of the three steps of [process_sales_data], for
    an input whose [SKU] column is [skus]. *)
Definition pass1 (self : SKUMapper) (df : DataFrame) (skus : list value) : DataFrame :=
  setitem "MSKU" (resolve self <$> skus) df.

Definition pass2 (self : SKUMapper) (df : DataFrame) (skus : list value) : DataFrame :=
  setitem "SKU" (classify <$> skus) (pass1 self df skus).

Definition pass3 (self : SKUMapper) (df : DataFrame) (skus : list value) : DataFrame :=
  setitem "MSKU" (resolve self <$> (classify <$> skus)) (pass2 self df skus).

(** ** Scenarios used as concrete inputs *)

(** The mapping table of scenarios A and B. *)
Definition scenario_mapper : SKUMapper :=
  MkSKUMapper (<[VStr "XYZ999" := VStr "M-2"]> {[VStr "ABC123" := VStr "M-1"]}) None.

(** A mapping table that has an entry for the placeholder text itself. *)
Definition placeholder_mapper : SKUMapper :=
  MkSKUMapper {[VStr "COMBO_MSKU" := VStr "M-9"]} None.

(** A sales table of four rows with a quantity column. *)
Definition scenario_sales : DataFrame :=
  MkDataFrame 4
    [("SKU", [VStr " abc123 "; VStr "combo_special"; VNaN; VStr "UNKNOWN1"]);
     ("Qty", [VInt 1; VInt 2; VInt 3; VInt 4])].

(** That table after a run with the mapping of scenarios A and B. *)
Definition scenario_sales_done : DataFrame :=
  MkDataFrame 4
    [("SKU", [VStr " abc123 "; VStr "COMBO_MSKU"; VNaN; VStr "UNKNOWN1"]);
     ("Qty", [VInt 1; VInt 2; VInt 3; VInt 4]);
     ("MSKU", [VStr "M-1"; VStr "COMBO_MSKU"; VNone; VStr "UNKNOWN1"])].

(** The same table without its [SKU] column. *)
Definition scenario_sales_no_sku : DataFrame :=
  MkDataFrame 4 [("Qty", [VInt 1; VInt 2; VInt 3; VInt 4])].

(** A mapping file with a repeated SKU and keys in several spellings. *)
Definition scenario_mapping : DataFrame :=
  MkDataFrame 4
    [("SKU", [VStr "ABC123"; VStr "XYZ999"; VStr "ABC123"; VStr " low1 "]);
     ("MSKU", [VStr "M-0"; VStr "M-2"; VStr "M-1"; VStr "M-3"])].

Definition scenario_files (file_path : string) : read_csv_outcome :=
  if decide (file_path = "mapping.csv") then Parsed scenario_mapping
  else if decide (file_path = "broken.csv") then Failed "Error tokenizing data."
  else NotFound.

(** The mapper after loading ["mapping.csv"] into a fresh one. *)
Definition scenario_loaded : SKUMapper :=
  MkSKUMapper
    (to_dict (zip [VStr "ABC123"; VStr "XYZ999"; VStr "ABC123"; VStr " low1 "]
                [VStr "M-0"; VStr "M-2"; VStr "M-1"; VStr "M-3"])) None.

(** ** The window: [WMSApp]

    The window object keeps the mapper, the loaded and the processed
    table, and the widgets whose configuration its handlers change: two
    status labels (text and colour), the process and the save button
    (enabled or not) and the log area (the lines inserted, each with its
    tag).  What a handler does outside the object is listed in order:
    records sent to [logging] by the mapper, message boxes, and calls
    that write a file.  Colours of tags, scrolling, and making the log
    area writable and read-only again around an insertion are left out.
    The path a file dialog returns is an argument of the handler; the
    empty path is a cancelled dialog. *)

(** The newline character. *)
Definition nl : string := String (ascii_of_nat 10) EmptyString.

(** [s.endswith(suffix)]. *)
Fixpoint endswith (s suffix : string) : bool :=
  if decide (s = suffix) then true
  else match s with
       | EmptyString => false
       | String _ s' => endswith s' suffix
       end.

Fixpoint has_slash (p : string) : bool :=
  match p with
  | EmptyString => false
  | String c p' => if decide (c = "/"%char) then true else has_slash p'
  end.

(** [os.path.basename(p)] for a POSIX path: what follows the last
    slash. *)
Fixpoint basename (p : string) : string :=
  match p with
  | EmptyString => EmptyString
  | String c p' =>
      if decide (c = "/"%char) then basename p'
      else if has_slash p' then basename p' else p
  end.

(** [str(e)] for the exceptions of this program. *)
Definition str_exn (e : exn) : string :=
  match e with
  | ValueError msg => msg
  | FileNotFoundError msg => msg
  | KeyError key => "'" +:+ key +:+ "'"
  end.

(** [tk.NORMAL] and [tk.DISABLED]. *)
Inductive widget_state : Type := NORMAL | DISABLED.

#[global] Instance widget_state_eq_dec : EqDecision widget_state.
Proof. solve_decision. Defined.

Record WMSApp : Type := MkWMSApp {
  sku_mapper : SKUMapper;
  sales_data_df : option DataFrame;
  processed_data_df : option DataFrame;
  mapping_status_label : string * string;
  sales_status_label : string * string;
  process_button : widget_state;
  save_button : widget_state;
  log_text : list (string * string)
}.

Inductive effect : Type :=
  | logged (r : log_record)
  | showerror (title message : string)
  | showwarning (title message : string)
  | showinfo (title message : string)
  | to_csv (file_path : string) (df : DataFrame)
  | to_excel (file_path : string) (df : DataFrame).

(** The pandas functions the window calls.  A read yields a table or
    raises; [str_not_found p] is the text of the [FileNotFoundError]
    raised for the path [p]; a write returns, or raises an exception
    whose text is given. *)
Record pandas : Type := MkPandas {
  pd_read_csv : string → read_csv_outcome;
  pd_read_excel : string → read_csv_outcome;
  str_not_found : string → string;
  df_to_csv : string → DataFrame → option string;
  df_to_excel : string → DataFrame → option string
}.

(** A handler changes the window object and lists its effects. *)
Definition Handler : Type := WMSApp → WMSApp * list effect.

Definition andthen (h1 h2 : Handler) : Handler := λ app,
  let (app1, e1) := h1 app in
  let (app2, e2) := h2 app1 in
  (app2, e1 ++ e2).

Infix ">>" := andthen (at level 61, left associativity).

Definition emit (es : list effect) : Handler := λ app, (app, es).

Definition set_sku_mapper (m : SKUMapper) : Handler := λ app,
  (MkWMSApp m (sales_data_df app) (processed_data_df app) (mapping_status_label app)
     (sales_status_label app) (process_button app) (save_button app) (log_text app), []).

Definition set_sales_data_df (df : DataFrame) : Handler := λ app,
  (MkWMSApp (sku_mapper app) (Some df) (processed_data_df app) (mapping_status_label app)
     (sales_status_label app) (process_button app) (save_button app) (log_text app), []).

Definition set_processed_data_df (df : DataFrame) : Handler := λ app,
  (MkWMSApp (sku_mapper app) (sales_data_df app) (Some df) (mapping_status_label app)
     (sales_status_label app) (process_button app) (save_button app) (log_text app), []).

Definition config_mapping_status_label (text fg : string) : Handler := λ app,
  (MkWMSApp (sku_mapper app) (sales_data_df app) (processed_data_df app) (text, fg)
     (sales_status_label app) (process_button app) (save_button app) (log_text app), []).

Definition config_sales_status_label (text fg : string) : Handler := λ app,
  (MkWMSApp (sku_mapper app) (sales_data_df app) (processed_data_df app)
     (mapping_status_label app) (text, fg) (process_button app) (save_button app)
     (log_text app), []).

Definition config_process_button (st : widget_state) : Handler := λ app,
  (MkWMSApp (sku_mapper app) (sales_data_df app) (processed_data_df app)
     (mapping_status_label app) (sales_status_label app) st (save_button app)
     (log_text app), []).

Definition config_save_button (st : widget_state) : Handler := λ app,
  (MkWMSApp (sku_mapper app) (sales_data_df app) (processed_data_df app)
     (mapping_status_label app) (sales_status_label app) (process_button app) st
     (log_text app), []).

Definition log_text_insert (text tag : string) : Handler := λ app,
  (MkWMSApp (sku_mapper app) (sales_data_df app) (processed_data_df app)
     (mapping_status_label app) (sales_status_label app) (process_button app)
     (save_button app) (log_text app ++ [(text, tag)]), []).

(** [log_message(self, message, level)]; a level other than the three
    inserts nothing. *)
Definition log_message (message level : string) : Handler :=
  if decide (level = "info") then
    log_text_insert ("[INFO] " +:+ message +:+ nl) "info"
  else if decide (level = "warning") then
    log_text_insert ("[WARNING] " +:+ message +:+ nl) "warning"
  else if decide (level = "error") then
    log_text_insert ("[ERROR] " +:+ message +:+ nl) "error"
  else emit [].

(** [_check_enable_process_button(self)]. *)
Definition _check_enable_process_button : Handler := λ app,
  if bool_decide (sku_to_msku_map (sku_mapper app) ≠ ∅)
     && bool_decide (sales_data_df app ≠ None)
  then (config_process_button NORMAL >>
        log_message "Ready to process data. Click 'Process Sales Data'." "info") app
  else config_process_button DISABLED app.

(** What a call of the constructor ends in: a window object, or the
    [TypeError] of a call that is given the same option twice. *)
Inductive construction : Type :=
  | Built (app : WMSApp)
  | Raised_TypeError.

(** [WMSApp(master)].  The constructor builds the mapper, which logs,
    then the frames and the first widgets.  The call that builds
    [mapping_status_label] (line 141) passes the option [fg] twice, once
    inside [**label_style] and once by name; Python refuses such a call
    with a [TypeError] before the label exists, and nothing catches it.
    So the constructor raises after the mapper's log record, and gives
    no window. *)
Definition WMSApp__init__ : construction * list effect :=
  (Raised_TypeError, logged <$> out __init__).

(** A window object as the handlers expect to find it at the start: the
    mapper empty, no table loaded or processed, both buttons disabled,
    the labels and the log area as the constructor would leave them had
    it reached lines 141 to 168 without the repeated option and before
    its welcome line.  The handlers are methods of the object and are
    studied on window objects that are given, this one among them. *)
Definition blank_window : WMSApp :=
  MkWMSApp (val __init__) None None
    ("No mapping loaded", "#d32f2f") ("No sales data loaded", "#d32f2f")
    DISABLED DISABLED [].

(** [load_mapping_file(self)], for the path the dialog returned. *)
Definition load_mapping_file (pd : pandas) (file_path : string) : Handler := λ app,
  if decide (file_path = "") then
    log_message "Mapping file selection cancelled." "warning" app
  else
    let r := load_mapping (pd_read_csv pd) (sku_mapper app) file_path in
    let called := emit (logged <$> out r) >> set_sku_mapper (val r).2 in
    match (val r).1 with
    | Return _ =>
        (called >>
         config_mapping_status_label ("Mapping loaded: " +:+ basename file_path) "#2e7d32" >>
         log_message ("Successfully loaded mapping from " +:+ basename file_path) "info" >>
         _check_enable_process_button) app
    | Raise e =>
        (called >>
         config_mapping_status_label "Error loading mapping!" "#d32f2f" >>
         log_message ("Failed to load mapping: " +:+ str_exn e) "error" >>
         emit [showerror "Error" ("Failed to load mapping: " +:+ str_exn e)]) app
    end.

(** The read in the [try] block of [load_sales_file], chosen by the
    extension of the path: the table, or the text of the exception. *)
Definition read_sales (pd : pandas) (file_path : string) : DataFrame + string :=
  let outcome (o : read_csv_outcome) : DataFrame + string :=
    match o with
    | Parsed df => inl df
    | NotFound => inr (str_not_found pd file_path)
    | Failed msg => inr msg
    end in
  if endswith file_path ".csv" then outcome (pd_read_csv pd file_path)
  else if endswith file_path ".xlsx" || endswith file_path ".xls" then
    outcome (pd_read_excel pd file_path)
  else inr "Unsupported file type. Please select a CSV or Excel file.".

(** [load_sales_file(self)], for the path the dialog returned. *)
Definition load_sales_file (pd : pandas) (file_path : string) : Handler := λ app,
  if decide (file_path = "") then
    log_message "Sales data file selection cancelled." "warning" app
  else
    match read_sales pd file_path with
    | inl df =>
        (set_sales_data_df df >>
         config_sales_status_label ("Sales data loaded: " +:+ basename file_path) "#2e7d32" >>
         log_message ("Successfully loaded sales data from " +:+ basename file_path
                      +:+ ". Rows: " +:+ string_of_nat (index_size df)) "info" >>
         _check_enable_process_button) app
    | inr e =>
        (config_sales_status_label "Error loading sales data!" "#d32f2f" >>
         log_message ("Failed to load sales data: " +:+ e) "error" >>
         emit [showerror "Error" ("Failed to load sales data: " +:+ e)]) app
    end.

(** [process_data(self)].  The mapper works on a copy of the loaded
    table, so [sales_data_df] is not the table it updates. *)
Definition process_data : Handler := λ app,
  match sales_data_df app with
  | None =>
      (log_message "No sales data loaded to process." "warning" >>
       emit [showwarning "Warning" "Please load sales data first."]) app
  | Some sales_data =>
      if decide (sku_to_msku_map (sku_mapper app) = ∅) then
        (log_message "No SKU to MSKU mapping loaded." "warning" >>
         emit [showwarning "Warning" "Please load SKU to MSKU mapping file first."]) app
      else
        let df_to_process := sales_data in
        let r := process_sales_data (sku_mapper app) df_to_process "SKU" "MSKU" in
        let called := emit (logged <$> out r) >> set_sku_mapper (val r).2.1 in
        match (val r).1 with
        | Return df =>
            (called >>
             set_processed_data_df df >>
             log_message "Sales data processing complete. 'MSKU' column added/updated."
               "info" >>
             config_save_button NORMAL >>
             emit [showinfo "Success"
                     "Sales data processed successfully! You can now save the results."]) app
        | Raise (ValueError ve) =>
            (called >>
             log_message ("Processing error: " +:+ ve) "error" >>
             emit [showerror "Error"
                     ("Processing error: " +:+ ve +:+ nl
                      +:+ "Please ensure your sales data has a 'SKU' column.")]) app
        | Raise e =>
            (called >>
             log_message ("An unexpected error occurred during processing: " +:+ str_exn e)
               "error" >>
             emit [showerror "Error"
                     ("An unexpected error occurred during processing: " +:+ str_exn e)]) app
        end
  end.

(** [save_processed_data(self)], for the path the save dialog would
    return; the dialog is opened only when there is a processed table. *)
Definition save_processed_data (pd : pandas) (file_path : string) : Handler := λ app,
  match processed_data_df app with
  | None =>
      (log_message "No processed data to save." "warning" >>
       emit [showwarning "Warning"
               "No processed data available. Please process data first."]) app
  | Some df =>
      if decide (file_path = "") then log_message "Save operation cancelled." "warning" app
      else
        let (written, raised) :=
          if endswith file_path ".csv" then
            ([to_csv file_path df], df_to_csv pd file_path df)
          else if endswith file_path ".xlsx" then
            ([to_excel file_path df], df_to_excel pd file_path df)
          else ([], None) in
        match raised with
        | None =>
            (emit written >>
             log_message ("Processed data saved to " +:+ basename file_path) "info" >>
             emit [showinfo "Success" ("Processed data saved to:" +:+ nl +:+ file_path)]) app
        | Some e =>
            (emit written >>
             log_message ("Failed to save processed data: " +:+ e) "error" >>
             emit [showerror "Error" ("Failed to save processed data: " +:+ e)]) app
        end
  end.

(** What the user can do with the window.  A button that is disabled
    does not call its handler. *)
Inductive action : Type :=
  | ClickLoadMapping (file_path : string)
  | ClickLoadSales (file_path : string)
  | ClickProcess
  | ClickSave (file_path : string).

Definition enabled (app : WMSApp) (a : action) : bool :=
  match a with
  | ClickLoadMapping _ | ClickLoadSales _ => true
  | ClickProcess => bool_decide (process_button app = NORMAL)
  | ClickSave _ => bool_decide (save_button app = NORMAL)
  end.

Definition handler (pd : pandas) (a : action) : Handler :=
  match a with
  | ClickLoadMapping file_path => load_mapping_file pd file_path
  | ClickLoadSales file_path => load_sales_file pd file_path
  | ClickProcess => process_data
  | ClickSave file_path => save_processed_data pd file_path
  end.

(** The window objects that a sequence of actions leads to from the
    object [start], each action possible when it is taken. *)
Inductive reachable (pd : pandas) (start : WMSApp) : WMSApp → Prop :=
  | reachable_start : reachable pd start start
  | reachable_step app a :
      reachable pd start app → enabled app a = true →
      reachable pd start (handler pd a app).1.

(** The buttons agree with what is loaded; every handler keeps this
    (see [reachable_invariant]). *)
Definition window_invariant (app : WMSApp) : Prop :=
  (process_button app = NORMAL ↔
   sku_to_msku_map (sku_mapper app) ≠ ∅ ∧ sales_data_df app ≠ None) ∧
  (save_button app = NORMAL ↔ processed_data_df app ≠ None) ∧
  processed_data (sku_mapper app) = processed_data_df app.

(** A world for the scenarios: the mapping file, a sales file, nothing
    else; writes succeed. *)
Definition scenario_pandas : pandas :=
  MkPandas
    (λ p, if decide (p = "data/sales.csv") then Parsed scenario_sales else scenario_files p)
    (λ _, NotFound)
    (λ p, "[Errno 2] No such file or directory: '" +:+ p +:+ "'")
    (λ _ _, None)
    (λ _ _, None).

(** The blank window after the user has loaded ["mapping.csv"] and then
    ["data/sales.csv"]. *)
Definition scenario_window : WMSApp :=
  (handler scenario_pandas (ClickLoadSales "data/sales.csv")
     (handler scenario_pandas (ClickLoadMapping "mapping.csv") blank_window).1).1.

(** ** Basic facts: the log monad and [Series_apply] *)

Lemma val_bind {A B : Type} (m : Logged A) (k : A → Logged B) :
  val (m ≫= k) = val (k (val m)).
Proof. reflexivity. Qed.

Lemma out_bind {A B : Type} (m : Logged A) (k : A → Logged B) :
  out (m ≫= k) = out m ++ out (k (val m)).
Proof. reflexivity. Qed.

Lemma val_Series_apply {A B : Type} (f : A → Logged B) (cells : list A) :
  val (Series_apply f cells) = (λ x, val (f x)) <$> cells.
Proof.
  induction cells as [|x rest IH]; [done|].
  change (val (Series_apply f (x :: rest))) with (val (f x) :: val (Series_apply f rest)).
  by rewrite IH.
Qed.

Lemma out_Series_apply_cons {A B : Type} (f : A → Logged B) x rest :
  out (Series_apply f (x :: rest)) = out (f x) ++ out (Series_apply f rest).
Proof.
  change (out (Series_apply f (x :: rest))) with (out (f x) ++ (out (Series_apply f rest) ++ [])).
  by rewrite app_nil_r.
Qed.

(** ** Basic facts: columns *)

Lemma assoc_None c cols : assoc c cols = None ↔ c ∉ cols.*1.
Proof.
  induction cols as [|[c' x] cols IH]; cbn.
  - split; [intros _; apply not_elem_of_nil | done].
  - destruct (decide (c' = c)) as [->|Hc].
    + split; [done | intros Hn; exfalso; apply Hn; left].
    + rewrite IH, not_elem_of_cons. split; [by intros ?; split | by intros []].
Qed.

Lemma getitem_None c df : getitem c df = None ↔ has_column c df = false.
Proof.
  unfold getitem, has_column, columns. rewrite assoc_None.
  by rewrite bool_decide_eq_false.
Qed.

Lemma assoc_assign_eq c x cols : assoc c (assign c x cols) = Some x.
Proof.
  induction cols as [|[c' y] cols IH]; cbn.
  - by rewrite decide_True.
  - destruct (decide (c' = c)) as [->|Hc]; cbn.
    + by rewrite decide_True.
    + by rewrite decide_False.
Qed.

Lemma assoc_assign_ne c c' x cols : c ≠ c' → assoc c' (assign c x cols) = assoc c' cols.
Proof.
  intros Hne. induction cols as [|[d y] cols IH]; cbn.
  - by rewrite decide_False.
  - destruct (decide (d = c)) as [->|Hd]; cbn.
    + by rewrite !decide_False.
    + destruct (decide (d = c')); [done | apply IH].
Qed.

Lemma assign_assign c x y cols : assign c y (assign c x cols) = assign c y cols.
Proof.
  induction cols as [|[d z] cols IH]; cbn.
  - by rewrite decide_True.
  - destruct (decide (d = c)) as [->|Hd]; cbn.
    + by rewrite decide_True.
    + rewrite decide_False by done. by rewrite IH.
Qed.

Lemma assign_id c x cols : assoc c cols = Some x → assign c x cols = cols.
Proof.
  induction cols as [|[d z] cols IH]; cbn; [done|].
  destruct (decide (d = c)) as [->|Hd]; [by intros [= ->] | intros H; by rewrite IH].
Qed.

Lemma assign_fst c x cols :
  (assign c x cols).*1 = if decide (c ∈ cols.*1) then cols.*1 else cols.*1 ++ [c].
Proof.
  induction cols as [|[d z] cols IH]; cbn.
  - by rewrite decide_False by apply not_elem_of_nil.
  - destruct (decide (d = c)) as [->|Hd]; cbn.
    + rewrite decide_True; [done | left].
    + rewrite IH. destruct (decide (c ∈ cols.*1)) as [Hin|Hin].
      * rewrite decide_True; [done | by right].
      * rewrite decide_False; [done|]. rewrite not_elem_of_cons. naive_solver.
Qed.

Lemma getitem_setitem_eq c x df : getitem c (setitem c x df) = Some x.
Proof. apply assoc_assign_eq. Qed.

Lemma getitem_setitem_ne c c' x df : c ≠ c' → getitem c' (setitem c x df) = getitem c' df.
Proof. apply assoc_assign_ne. Qed.

Lemma setitem_setitem c x y df : setitem c y (setitem c x df) = setitem c y df.
Proof. unfold setitem; cbn. by rewrite assign_assign. Qed.

Lemma setitem_id c x df : getitem c df = Some x → setitem c x df = df.
Proof. intros H. destruct df as [n cols]. unfold setitem; cbn. by rewrite assign_id. Qed.

(** ** The resolver and the classifier, cell by cell *)

Lemma resolve_null self v : pd_isna v = true → resolve self v = VNone.
Proof. intros H. unfold resolve, identify_and_map_sku. by rewrite H. Qed.

Lemma resolve_hit self v msku :
  pd_isna v = false → sku_to_msku_map self !! VStr (clean v) = Some msku →
  resolve self v = msku.
Proof. intros H Hk. unfold resolve, identify_and_map_sku. by rewrite H, Hk. Qed.

Lemma resolve_miss self v :
  pd_isna v = false → sku_to_msku_map self !! VStr (clean v) = None →
  resolve self v = v.
Proof. intros H Hk. unfold resolve, identify_and_map_sku. by rewrite H, Hk. Qed.

Lemma combo_not_null v : startswith (clean v) "COMBO_" = true → pd_isna v = false.
Proof. by destruct v. Qed.

Lemma classify_combo v : startswith (clean v) "COMBO_" = true → classify v = VStr "COMBO_MSKU".
Proof.
  intros H. unfold classify, _process_combo.
  by rewrite (combo_not_null v H), H.
Qed.

Lemma classify_other v : startswith (clean v) "COMBO_" = false → classify v = v.
Proof.
  intros H. unfold classify, _process_combo.
  destruct (pd_isna v); [done|]. by rewrite H.
Qed.

(** The classifier either replaces a cell by the placeholder or leaves it
    as it is, and the placeholder is itself classified as a combo. *)
Lemma classify_cases v : classify v = VStr "COMBO_MSKU" ∨ classify v = v.
Proof.
  destruct (startswith (clean v) "COMBO_") eqn:H.
  - left. by apply classify_combo.
  - right. by apply classify_other.
Qed.

Lemma classify_idemp v : classify (classify v) = classify v.
Proof.
  destruct (classify_cases v) as [H|H]; rewrite H; [|done].
  by apply classify_combo.
Qed.

(** ** What a run of [process_sales_data] computes *)

Lemma handle_combo_products_val df c p skus :
  getitem c df = Some skus →
  val (handle_combo_products df c p) = setitem c ((λ v, val (_process_combo p v)) <$> skus) df.
Proof.
  intros Hsku. unfold handle_combo_products. rewrite Hsku.
  rewrite val_bind, val_Series_apply. reflexivity.
Qed.

Lemma process_sales_data_val self df skus :
  sku_to_msku_map self ≠ ∅ →
  getitem "SKU" df = Some skus →
  val (process_sales_data self df "SKU" "MSKU") =
    (Return (pass3 self df skus),
     (MkSKUMapper (sku_to_msku_map self) (Some (pass3 self df skus)), pass3 self df skus)).
Proof.
  intros Hmap Hsku. unfold process_sales_data.
  rewrite decide_False by done. rewrite Hsku.
  rewrite val_bind, val_Series_apply, val_bind.
  rewrite (handle_combo_products_val _ _ _ skus)
    by (by rewrite getitem_setitem_ne).
  rewrite getitem_setitem_eq.
  rewrite val_bind, val_Series_apply. reflexivity.
Qed.

Lemma process_sales_data_Return self df df' st :
  val (process_sales_data self df "SKU" "MSKU") = (Return df', st) →
  sku_to_msku_map self ≠ ∅ ∧
  ∃ skus, getitem "SKU" df = Some skus ∧ df' = pass3 self df skus ∧
          st = (MkSKUMapper (sku_to_msku_map self) (Some df'), df').
Proof.
  intros H.
  destruct (decide (sku_to_msku_map self = ∅)) as [He|He].
  { unfold process_sales_data in H. by rewrite decide_True in H. }
  split; [done|].
  destruct (getitem "SKU" df) as [skus|] eqn:Hsku.
  - rewrite (process_sales_data_val _ _ skus) in H by done.
    injection H as <- <-. by exists skus.
  - unfold process_sales_data in H. rewrite decide_False, Hsku in H by done. done.
Qed.

Lemma handle_combo_products_out df c p skus :
  getitem c df = Some skus →
  out (handle_combo_products df c p) =
    out (Series_apply (_process_combo p) skus) ++ [(INFO, "Combo product handling applied.")].
Proof.
  intros Hsku. unfold handle_combo_products. rewrite Hsku.
  rewrite out_bind. reflexivity.
Qed.

(** The records of a successful run, in the order they are emitted. *)
Lemma process_sales_data_out self df skus :
  sku_to_msku_map self ≠ ∅ →
  getitem "SKU" df = Some skus →
  out (process_sales_data self df "SKU" "MSKU") =
    out (Series_apply (identify_and_map_sku self) skus) ++
    out (Series_apply (_process_combo "COMBO_") skus) ++
    [(INFO, "Combo product handling applied.")] ++
    out (Series_apply (identify_and_map_sku self) (classify <$> skus)) ++
    [(INFO, "Sales data processed successfully with MSKU mapping.")].
Proof.
  intros Hmap Hsku. unfold process_sales_data.
  rewrite decide_False by done. rewrite Hsku.
  rewrite out_bind, val_Series_apply, out_bind.
  assert (getitem "SKU" (setitem "MSKU" ((λ x, val (identify_and_map_sku self x)) <$> skus) df)
          = Some skus) as Hsku1 by (by rewrite getitem_setitem_ne).
  rewrite (handle_combo_products_out _ _ _ skus) by done.
  rewrite (handle_combo_products_val _ _ _ skus) by done.
  rewrite getitem_setitem_eq.
  rewrite out_bind, val_Series_apply.
  rewrite <- !app_assoc. reflexivity.
Qed.

(** Cells of the table a run returns. *)
Lemma cell_pass3_SKU self df skus i :
  cell "SKU" i (pass3 self df skus) = classify <$> skus !! i.
Proof.
  unfold cell, pass3, pass2.
  rewrite getitem_setitem_ne by done. rewrite getitem_setitem_eq.
  cbn. by rewrite list_lookup_fmap.
Qed.

Lemma cell_pass3_MSKU self df skus i :
  cell "MSKU" i (pass3 self df skus) = (λ v, resolve self (classify v)) <$> skus !! i.
Proof.
  unfold cell, pass3. rewrite getitem_setitem_eq.
  cbn. rewrite !list_lookup_fmap. by destruct (skus !! i).
Qed.

Lemma cell_Some c i df v :
  cell c i df = Some v ↔ ∃ cells, getitem c df = Some cells ∧ cells !! i = Some v.
Proof.
  unfold cell. destruct (getitem c df) as [cells|]; cbn.
  - split; [by exists cells | by intros (? & [= <-] & ?)].
  - split; [done | by intros (? & ? & ?)].
Qed.

(** ** C1: combo rows *)

(** C1 (as amended).  In a run of [process_sales_data] that returns, a
    row whose original SKU, stripped and uppercased, starts with
    ["COMBO_"] has SKU equal to the placeholder ["COMBO_MSKU"] and MSKU
    equal to what the resolver gives for the placeholder under the loaded
    mapping: the placeholder itself when the mapping has no such key, the
    mapped value when it has one.  The run is resolve, then classify in
    place on SKU, then resolve again, and its log lists the records of
    the three passes in that order. *)
Theorem combo_row_after_transform self df df' st i s :
  val (process_sales_data self df "SKU" "MSKU") = (Return df', st) →
  cell "SKU" i df = Some s →
  startswith (clean s) "COMBO_" = true →
  cell "SKU" i df' = Some (VStr "COMBO_MSKU") ∧
  cell "MSKU" i df' = Some (val (identify_and_map_sku self (VStr "COMBO_MSKU"))) ∧
  (sku_to_msku_map self !! VStr "COMBO_MSKU" = None →
     cell "MSKU" i df' = Some (VStr "COMBO_MSKU")) ∧
  (∀ msku, sku_to_msku_map self !! VStr "COMBO_MSKU" = Some msku →
     cell "MSKU" i df' = Some msku) ∧
  ∃ skus, getitem "SKU" df = Some skus ∧
    df' = setitem "MSKU" (resolve self <$> (classify <$> skus))
            (setitem "SKU" (classify <$> skus)
               (setitem "MSKU" (resolve self <$> skus) df)) ∧
    out (process_sales_data self df "SKU" "MSKU") =
      out (Series_apply (identify_and_map_sku self) skus) ++
      out (Series_apply (_process_combo "COMBO_") skus) ++
      [(INFO, "Combo product handling applied.")] ++
      out (Series_apply (identify_and_map_sku self) (classify <$> skus)) ++
      [(INFO, "Sales data processed successfully with MSKU mapping.")].
Proof.
  intros Hrun Hcell Hcombo.
  apply process_sales_data_Return in Hrun as (Hmap & skus & Hsku & -> & _).
  apply cell_Some in Hcell as (skus' & Hsku' & Hi).
  rewrite Hsku in Hsku'. injection Hsku' as <-.
  assert (cell "MSKU" i (pass3 self df skus) = Some (resolve self (VStr "COMBO_MSKU"))) as HM.
  { rewrite cell_pass3_MSKU, Hi. cbn. by rewrite classify_combo. }
  split; [|split; [|split; [|split]]].
  - rewrite cell_pass3_SKU, Hi. cbn. by rewrite classify_combo.
  - exact HM.
  - intros Hnone. rewrite HM. f_equal. by apply resolve_miss.
  - intros msku Hsome. rewrite HM. f_equal. by apply resolve_hit.
  - exists skus. split; [done|]. split; [done|].
    by apply process_sales_data_out.
Qed.

Lemma combo_row_after_transform_witness :
  cell "SKU" 1 scenario_sales_done = Some (VStr "COMBO_MSKU") ∧
  cell "MSKU" 1 scenario_sales_done = Some (VStr "COMBO_MSKU").
Proof.
  destruct (combo_row_after_transform scenario_mapper scenario_sales scenario_sales_done
              (MkSKUMapper (sku_to_msku_map scenario_mapper) (Some scenario_sales_done),
               scenario_sales_done)
              1 (VStr "combo_special"))
    as (HS & _ & HM & _).
  - vm_compute. reflexivity.
  - reflexivity.
  - reflexivity.
  - split; [exact HS | apply HM; vm_compute; reflexivity].
Defined.

(** C1, as first stated, fails: with a mapping that has the key
    ["COMBO_MSKU"], the combo row ["combo_special"] ends with MSKU ["M-9"],
    not the placeholder. *)
Lemma combo_row_msku_not_placeholder :
  let df := MkDataFrame 1 [("SKU", [VStr "combo_special"])] in
  ∃ df' st,
    val (process_sales_data placeholder_mapper df "SKU" "MSKU") = (Return df', st) ∧
    cell "SKU" 0 df = Some (VStr "combo_special") ∧
    startswith (clean (VStr "combo_special")) "COMBO_" = true ∧
    cell "SKU" 0 df' = Some (VStr "COMBO_MSKU") ∧
    cell "MSKU" 0 df' = Some (VStr "M-9") ∧
    cell "MSKU" 0 df' ≠ Some (VStr "COMBO_MSKU").
Proof.
  intros df. eexists _, _. split.
  - apply process_sales_data_val; [|reflexivity].
    intros H. apply (f_equal (λ m : gmap value value, m !! VStr "COMBO_MSKU")) in H.
    vm_compute in H. discriminate.
  - split; [reflexivity|]. split; [reflexivity|].
    rewrite cell_pass3_SKU, cell_pass3_MSKU. cbn.
    rewrite (classify_combo (VStr "combo_special")) by reflexivity.
    rewrite (resolve_hit placeholder_mapper _ (VStr "M-9")) by reflexivity.
    by repeat split.
Qed.

(** ** C2 and C3: the resolver on a text or number *)

(** C2.  For a raw SKU that is not null and whose normal form [k] is a
    key of the mapping table, [identify_and_map_sku] returns the MSKU
    stored under [k], and logs nothing. *)
Theorem identify_and_map_sku_mapped self s k msku :
  pd_isna s = false →
  upper (strip (py_str s)) = k →
  sku_to_msku_map self !! VStr k = Some msku →
  identify_and_map_sku self s = MkLogged msku [].
Proof.
  intros Hs <- Hk. unfold identify_and_map_sku, clean. by rewrite Hs, Hk.
Qed.

(** Scenario A. *)
Lemma identify_and_map_sku_mapped_witness :
  identify_and_map_sku scenario_mapper (VStr " abc123 ") = MkLogged (VStr "M-1") [].
Proof.
  apply (identify_and_map_sku_mapped scenario_mapper (VStr " abc123 ") "ABC123").
  - reflexivity.
  - reflexivity.
  - vm_compute. reflexivity.
Defined.

(** C3.  For a raw SKU that is not null and whose normal form is not a
    key of the mapping table, [identify_and_map_sku] returns the value it
    was given, not the normal form, with one warning; and a run of
    [process_sales_data] over a table holding such a SKU returns rather
    than raises. *)
Theorem identify_and_map_sku_unmapped self s :
  pd_isna s = false →
  sku_to_msku_map self !! VStr (upper (strip (py_str s))) = None →
  val (identify_and_map_sku self s) = s ∧
  (∃ msg, out (identify_and_map_sku self s) = [(WARNING, msg)]) ∧
  ∀ df skus, sku_to_msku_map self ≠ ∅ → getitem "SKU" df = Some skus → s ∈ skus →
    ∃ df' st, val (process_sales_data self df "SKU" "MSKU") = (Return df', st).
Proof.
  intros Hs Hk. unfold identify_and_map_sku, clean. rewrite Hs, Hk.
  split; [done|]. split; [by eexists|].
  intros df skus Hmap Hsku _. eexists _, _.
  by apply process_sales_data_val.
Qed.

(** Scenario B. *)
Lemma identify_and_map_sku_unmapped_witness :
  val (identify_and_map_sku scenario_mapper (VStr "UNKNOWN1")) = VStr "UNKNOWN1".
Proof.
  refine (proj1 (identify_and_map_sku_unmapped scenario_mapper (VStr "UNKNOWN1") _ _)).
  - reflexivity.
  - vm_compute. reflexivity.
Defined.

(** The normal form is not what a miss returns. *)
Example identify_and_map_sku_miss_keeps_spelling :
  val (identify_and_map_sku scenario_mapper (VStr " unknown1 ")) = VStr " unknown1 ".
Proof. vm_compute. reflexivity. Qed.

(** A number is looked up by its text and returned as the number on a
    miss. *)
Example identify_and_map_sku_number :
  val (identify_and_map_sku scenario_mapper (VInt 42)) = VInt 42.
Proof. vm_compute. reflexivity. Qed.

(** ** C4: null SKUs *)

(** X22.  An empty field of a file is held as a null.  On a null
    ([None] or a nan), [identify_and_map_sku] returns [None] and logs
    nothing; and in a run of [process_sales_data] that returns, a row
    whose SKU is null keeps that SKU and has MSKU [None]. *)
Theorem null_sku_gives_null_msku self s :
  pd_isna s = true →
  identify_and_map_sku self s = MkLogged VNone [] ∧
  ∀ df df' st i,
    val (process_sales_data self df "SKU" "MSKU") = (Return df', st) →
    cell "SKU" i df = Some s →
    cell "SKU" i df' = Some s ∧ cell "MSKU" i df' = Some VNone.
Proof.
  intros Hs. split.
  - unfold identify_and_map_sku. by rewrite Hs.
  - intros df df' st i Hrun Hcell.
    apply process_sales_data_Return in Hrun as (Hmap & skus & Hsku & -> & _).
    apply cell_Some in Hcell as (skus' & Hsku' & Hi).
    rewrite Hsku in Hsku'. injection Hsku' as <-.
    rewrite cell_pass3_SKU, cell_pass3_MSKU, Hi. cbn.
    assert (classify s = s) as -> by (unfold classify, _process_combo; by rewrite Hs).
    by rewrite resolve_null.
Qed.

Lemma null_sku_gives_null_msku_witness :
  identify_and_map_sku scenario_mapper VNaN = MkLogged VNone [] ∧
  cell "MSKU" 2 scenario_sales_done = Some VNone.
Proof.
  destruct (null_sku_gives_null_msku scenario_mapper VNaN) as [Hr Hrow].
  - reflexivity.
  - split; [exact Hr|].
    refine (proj2 (Hrow scenario_sales scenario_sales_done _ 2 _ _)).
    + vm_compute. reflexivity.
    + reflexivity.
Defined.

(** The empty text is a text, not a null: it is looked up like any other
    and, on a miss, returned as it is. *)
Example identify_and_map_sku_empty_text :
  pd_isna (VStr "") = false ∧
  val (identify_and_map_sku scenario_mapper (VStr "")) = VStr "".
Proof. split; [reflexivity | vm_compute; reflexivity]. Qed.

(** C4 (the code departs from the claim).  The guard of
    [identify_and_map_sku] is commented "Return None for NaN or empty
    SKUs", but [pd.isna] holds of nulls only.  For a SKU that is the
    empty text the resolver does not return [None]: it looks the text
    up and, on a miss, returns it with a miss warning, and after a run
    the row's MSKU is the empty text, which is not a null. *)
Theorem empty_text_sku_is_looked_up :
  pd_isna (VStr "") = false ∧
  identify_and_map_sku scenario_mapper (VStr "") =
    MkLogged (VStr "")
      [(WARNING, "SKU '' (cleaned: '') not found in mapping. Returning original SKU.")] ∧
  val (identify_and_map_sku scenario_mapper (VStr "")) ≠ VNone ∧
  ∃ df' st,
    val (process_sales_data scenario_mapper (MkDataFrame 1 [("SKU", [VStr ""])])
           "SKU" "MSKU") = (Return df', st) ∧
    cell "SKU" 0 df' = Some (VStr "") ∧
    cell "MSKU" 0 df' = Some (VStr "") ∧
    cell "MSKU" 0 df' ≠ Some VNone.
Proof.
  split; [reflexivity|]. split; [vm_compute; reflexivity|].
  split; [vm_compute; discriminate|].
  eexists _, _. split; [vm_compute; reflexivity|].
  split; [reflexivity|]. split; [reflexivity | discriminate].
Qed.

(** ** Building the mapping table *)

Lemma to_dict_snoc pairs k v : to_dict (pairs ++ [(k, v)]) = <[k := v]> (to_dict pairs).
Proof. unfold to_dict. by rewrite fold_left_app. Qed.

Lemma to_dict_dom pairs k : k ∈ dom (to_dict pairs) ↔ k ∈ pairs.*1.
Proof.
  induction pairs as [|[k' v'] pairs IH] using rev_ind.
  - unfold to_dict; cbn. rewrite dom_empty_L. set_solver.
  - rewrite to_dict_snoc, dom_insert_L, fmap_app, elem_of_app, elem_of_union, IH.
    cbn. rewrite elem_of_singleton, list_elem_of_singleton. tauto.
Qed.

(** The pair stored last under a key is the one the dict keeps. *)
Lemma to_dict_last_wins pairs i k v :
  pairs !! i = Some (k, v) →
  (∀ j kv, i < j → pairs !! j = Some kv → kv.1 ≠ k) →
  to_dict pairs !! k = Some v.
Proof.
  revert i. induction pairs as [|[k' v'] pairs IH] using rev_ind; intros i Hi Hlast.
  - done.
  - rewrite to_dict_snoc.
    destruct (decide (i = length pairs)) as [->|Hne].
    + rewrite list_lookup_middle in Hi by done. injection Hi as -> ->.
      by rewrite lookup_insert_eq.
    + assert (i < length pairs) as Hlt.
      { apply lookup_lt_Some in Hi. rewrite length_app in Hi. cbn in Hi. lia. }
      rewrite lookup_app_l in Hi by done.
      rewrite lookup_insert_ne.
      * apply (IH i); [done|]. intros j kv Hj Hkv.
        apply (Hlast j kv Hj). rewrite lookup_app_l; [done|]. by eapply lookup_lt_Some.
      * apply (Hlast (length pairs) (k', v') Hlt). by rewrite list_lookup_middle.
Qed.

(** ** Well-formed tables *)

Lemma well_formed_spec df :
  well_formed df = true ↔
  NoDup (columns df) ∧ ∀ c cells, (c, cells) ∈ data df → length cells = index_size df.
Proof.
  unfold well_formed. rewrite andb_true_iff, bool_decide_eq_true, forallb_forall.
  split; intros [Hnd Hlen]; (split; [done|]).
  - intros c cells Hin. apply list_elem_of_In, Hlen in Hin.
    by apply bool_decide_eq_true in Hin.
  - intros [c cells] Hin. apply bool_decide_eq_true. cbn.
    apply (Hlen c). by apply list_elem_of_In.
Qed.

Lemma assoc_Some_elem_of c cells cols : assoc c cols = Some cells → (c, cells) ∈ cols.
Proof.
  induction cols as [|[d x] cols IH]; cbn; [done|].
  destruct (decide (d = c)) as [->|Hd].
  - intros [= ->]. left.
  - intros H. right. by apply IH.
Qed.

Lemma well_formed_length df c cells :
  well_formed df = true → getitem c df = Some cells → length cells = index_size df.
Proof.
  intros [_ Hlen]%well_formed_spec Hc. apply (Hlen c). by apply assoc_Some_elem_of.
Qed.

Lemma elem_of_assign c cells cols d x :
  (d, x) ∈ assign c cells cols → (d, x) = (c, cells) ∨ (d, x) ∈ cols.
Proof.
  induction cols as [|[e y] cols IH]; cbn.
  - rewrite list_elem_of_singleton. by left.
  - destruct (decide (e = c)) as [->|He]; rewrite !elem_of_cons; [tauto|].
    intros [H|H]; [by right; left|]. apply IH in H as [H|H]; [by left | by right; right].
Qed.

Lemma well_formed_setitem c cells df :
  well_formed df = true → length cells = index_size df →
  well_formed (setitem c cells df) = true.
Proof.
  rewrite !well_formed_spec. intros [Hnd Hlen] Hcells. split.
  - unfold columns, setitem; cbn. rewrite assign_fst.
    destruct (decide (c ∈ (data df).*1)) as [Hin|Hin]; [done|].
    apply NoDup_app. split; [done|]. split; [|apply NoDup_singleton].
    intros x Hx ->%list_elem_of_singleton. done.
  - intros d x [[= -> ->] | Hin]%elem_of_assign; [done|].
    by apply (Hlen d).
Qed.

(** ** C5: a second run *)

(** A second run over the table a first run returned, with the same
    mapping, returns that table again. *)
Lemma process_sales_data_again self df df1 st1 :
  val (process_sales_data self df "SKU" "MSKU") = (Return df1, st1) →
  val (process_sales_data st1.1 st1.2 "SKU" "MSKU") = (Return df1, st1).
Proof.
  intros (Hmap & skus & Hsku & -> & ->)%process_sales_data_Return. cbn [fst snd].
  set (skus2 := classify <$> skus).
  assert (getitem "SKU" (pass3 self df skus) = Some skus2) as Hsku2.
  { unfold pass3, pass2. rewrite getitem_setitem_ne by done. apply getitem_setitem_eq. }
  rewrite (process_sales_data_val _ _ skus2) by done.
  assert (classify <$> skus2 = skus2) as Hfix.
  { unfold skus2. rewrite <- list_fmap_compose. apply list_fmap_ext.
    intros _ v _. apply classify_idemp. }
  assert (pass3 (MkSKUMapper (sku_to_msku_map self) (Some (pass3 self df skus)))
            (pass3 self df skus) skus2 = pass3 self df skus) as ->; [|done].
  unfold pass3 at 1. unfold pass2 at 1. unfold pass1 at 1.
  rewrite Hfix.
  change (resolve (MkSKUMapper (sku_to_msku_map self) (Some (pass3 self df skus))))
    with (resolve self).
  assert (setitem "MSKU" (resolve self <$> skus2) (pass3 self df skus) = pass3 self df skus)
    as -> by (unfold pass3; apply setitem_setitem).
  rewrite (setitem_id "SKU" skus2) by done.
  unfold pass3. apply setitem_setitem.
Qed.

(** C5 (as amended).  Running [process_sales_data] a second time on the
    table it returned, with the same mapping table, returns the same
    table: a combo row keeps SKU ["COMBO_MSKU"] and the MSKU the first
    run gave it. *)
Theorem process_sales_data_idempotent self df df1 st1 :
  val (process_sales_data self df "SKU" "MSKU") = (Return df1, st1) →
  val (process_sales_data st1.1 st1.2 "SKU" "MSKU") = (Return df1, st1) ∧
  ∀ i s, cell "SKU" i df1 = Some s → startswith (clean s) "COMBO_" = true →
    s = VStr "COMBO_MSKU".
Proof.
  intros Hrun. split; [by apply (process_sales_data_again self df)|].
  intros i s Hcell Hcombo.
  apply process_sales_data_Return in Hrun as (_ & skus & _ & -> & _).
  rewrite cell_pass3_SKU in Hcell.
  destruct (skus !! i) as [v|]; [|done]. injection Hcell as <-.
  destruct (classify_cases v) as [H|H]; [done|].
  rewrite H in Hcombo. by apply classify_combo.
Qed.

Lemma process_sales_data_idempotent_witness :
  val (process_sales_data scenario_mapper scenario_sales_done "SKU" "MSKU")
    = (Return scenario_sales_done,
       (MkSKUMapper (sku_to_msku_map scenario_mapper) (Some scenario_sales_done),
        scenario_sales_done)).
Proof.
  refine (proj1 (process_sales_data_idempotent scenario_mapper scenario_sales
                   scenario_sales_done
                   (MkSKUMapper (sku_to_msku_map scenario_mapper) (Some scenario_sales_done),
                    scenario_sales_done) _)).
  vm_compute. reflexivity.
Defined.

(** C5, as first stated, fails: no table returned by a run, with a combo
    row or without, is changed by a second run. *)
Lemma second_run_never_differs :
  ¬ ∃ self df df1 st1 df2 st2 i s,
      val (process_sales_data self df "SKU" "MSKU") = (Return df1, st1) ∧
      cell "SKU" i df1 = Some s ∧ startswith (clean s) "COMBO_" = true ∧
      val (process_sales_data st1.1 st1.2 "SKU" "MSKU") = (Return df2, st2) ∧
      df2 ≠ df1.
Proof.
  intros (self & df & df1 & st1 & df2 & st2 & i & s & Hrun & _ & _ & Hrun2 & Hne).
  apply (process_sales_data_again self df) in Hrun. rewrite Hrun in Hrun2.
  injection Hrun2 as -> _. done.
Qed.

(** ** C6 and C7: loading the mapping table *)

Lemma load_mapping_Return read_csv self file_path b self' :
  val (load_mapping read_csv self file_path) = (Return b, self') →
  ∃ mapping_df skus mskus,
    read_csv file_path = Parsed mapping_df ∧
    getitem "SKU" mapping_df = Some skus ∧ getitem "MSKU" mapping_df = Some mskus ∧
    b = true ∧
    self' = MkSKUMapper (to_dict (zip (index_keys skus) mskus)) (processed_data self).
Proof.
  unfold load_mapping. destruct (decide (file_path = "")); [done|].
  destruct (read_csv file_path) as [mapping_df| |msg]; [|done|done].
  destruct (getitem "SKU" mapping_df) as [skus|] eqn:Hs; [|done].
  destruct (getitem "MSKU" mapping_df) as [mskus|] eqn:Hm; [|done].
  intros [= <- <-]. by exists mapping_df, skus, mskus.
Qed.

(** A load from a file that is read and has both columns returns
    [True], stores the dict built from the two columns, and logs its
    size. *)
Lemma load_mapping_Parsed read_csv self file_path mapping_df skus mskus :
  file_path ≠ "" →
  read_csv file_path = Parsed mapping_df →
  getitem "SKU" mapping_df = Some skus →
  getitem "MSKU" mapping_df = Some mskus →
  load_mapping read_csv self file_path =
    MkLogged
      (Return true,
       MkSKUMapper (to_dict (zip (index_keys skus) mskus)) (processed_data self))
      [(INFO, "Loaded " +:+ string_of_nat (size (to_dict (zip (index_keys skus) mskus)))
              +:+ " SKU to MSKU mappings from " +:+ file_path)].
Proof.
  intros Hp Hread Hs Hm. unfold load_mapping.
  rewrite decide_False by done. by rewrite Hread, Hs, Hm.
Qed.

Lemma length_index_keys cells : length (index_keys cells) = length cells.
Proof. unfold index_keys. destruct (numeric_column cells); [apply length_imap | done]. Qed.

Lemma index_keys_lookup cells i :
  index_keys cells !! i =
    (λ v, if numeric_column cells
          then match v with VNaN => VNaNBoxed i | _ => v end else v) <$> cells !! i.
Proof.
  unfold index_keys. destruct (numeric_column cells).
  - by rewrite list_lookup_imap.
  - by destruct (cells !! i).
Qed.

Lemma numeric_column_lookup cells i v :
  numeric_column cells = true → cells !! i = Some v → v = VNaN ∨ ∃ z, v = VInt z.
Proof.
  unfold numeric_column. rewrite forallb_forall. intros Hall Hi.
  assert (In v cells) as Hin by (apply list_elem_of_In, list_elem_of_lookup; eauto).
  apply Hall in Hin. destruct v; try done; [by left | right; by eexists].
Qed.

(** A key that is not a null is a label of the index exactly where it is
    a cell of the column. *)
Lemma index_keys_lookup_value cells i k :
  pd_isna k = false → index_keys cells !! i = Some k ↔ cells !! i = Some k.
Proof.
  intros Hk. rewrite index_keys_lookup.
  destruct (cells !! i) as [v|] eqn:Hi; cbn; [|done].
  destruct (numeric_column cells) eqn:Hnum; [|done].
  destruct (numeric_column_lookup _ _ _ Hnum Hi) as [-> | [z ->]].
  - split; intros [= <-]; done.
  - done.
Qed.

Lemma elem_of_index_keys_value cells k :
  pd_isna k = false → k ∈ index_keys cells ↔ k ∈ cells.
Proof.
  intros Hk. rewrite !list_elem_of_lookup.
  split; intros [i Hi]; exists i; by apply (index_keys_lookup_value cells i k Hk).
Qed.

Lemma elem_of_index_keys cells k :
  k ∈ index_keys cells → k ∈ cells ∨ ∃ i, k = VNaNBoxed i ∧ cells !! i = Some VNaN.
Proof.
  rewrite list_elem_of_lookup. intros [i Hi]. rewrite index_keys_lookup in Hi.
  destruct (cells !! i) as [v|] eqn:Hc; cbn in Hi; [|done]. injection Hi as <-.
  destruct (numeric_column cells); [|left; apply list_elem_of_lookup; eauto].
  destruct v; try (left; apply list_elem_of_lookup; by eauto).
  right. by exists i.
Qed.

Lemma fst_zip_index_keys skus (mskus : list value) :
  length skus = length mskus → (zip (index_keys skus) mskus).*1 = index_keys skus.
Proof. intros H. apply fst_zip. rewrite length_index_keys. lia. Qed.

Lemma to_dict_size pairs : size (to_dict pairs) = length (remove_dups pairs.*1).
Proof.
  rewrite <- size_dom.
  assert (dom (to_dict pairs) = list_to_set (remove_dups pairs.*1)) as ->.
  { apply set_eq. intros k.
    by rewrite to_dict_dom, elem_of_list_to_set, elem_of_remove_dups. }
  apply size_list_to_set, NoDup_remove_dups.
Qed.

Lemma to_dict_zip_last_wins (keys vals : list value) i k v :
  keys !! i = Some k → vals !! i = Some v →
  (∀ j, i < j → keys !! j ≠ Some k) →
  to_dict (zip keys vals) !! k = Some v.
Proof.
  intros Hk Hv Hlast. apply (to_dict_last_wins _ i).
  - rewrite lookup_zip_with, Hk. cbn. by rewrite Hv.
  - intros j [k' v'] Hj Hkv. cbn. intros ->.
    apply (Hlast j Hj). rewrite lookup_zip_with in Hkv.
    destruct (keys !! j) as [kj|]; [|done]. cbn in Hkv.
    destruct (vals !! j); [|done]. cbn in Hkv. by injection Hkv as -> _.
Qed.

(** C6.  A load from a file that is read and has both columns returns
    [True] and stores the cells of the source [SKU] column as the keys of
    the dict, as they are, without stripping or upper-casing: a value
    that is not a null is a key exactly when it is one of those cells,
    and every key is one of those cells or the nan of an empty cell.  So
    a later lookup of a non-null SKU succeeds (returns without a miss
    warning) exactly when its stripped, uppercased text is one of those
    raw cells. *)
Theorem load_mapping_keys_verbatim read_csv self file_path mapping_df skus mskus :
  file_path ≠ "" →
  read_csv file_path = Parsed mapping_df →
  well_formed mapping_df = true →
  getitem "SKU" mapping_df = Some skus →
  getitem "MSKU" mapping_df = Some mskus →
  ∃ self',
    val (load_mapping read_csv self file_path) = (Return true, self') ∧
    (∀ k, pd_isna k = false → (k ∈ dom (sku_to_msku_map self') ↔ k ∈ skus)) ∧
    (∀ k, k ∈ dom (sku_to_msku_map self') →
       k ∈ skus ∨ ∃ i, k = VNaNBoxed i ∧ skus !! i = Some VNaN) ∧
    (∀ s, pd_isna s = false →
       (out (identify_and_map_sku self' s) = [] ↔
        VStr (upper (strip (py_str s))) ∈ skus)).
Proof.
  intros Hp Hread Hwf Hs Hm.
  rewrite (load_mapping_Parsed _ _ _ _ _ _ Hp Hread Hs Hm).
  eexists. split; [reflexivity|]. cbn [sku_to_msku_map].
  assert (∀ k, k ∈ dom (to_dict (zip (index_keys skus) mskus)) ↔ k ∈ index_keys skus)
    as Hdom.
  { intros k. rewrite to_dict_dom, fst_zip_index_keys; [done|].
    by rewrite (well_formed_length _ _ _ Hwf Hs), (well_formed_length _ _ _ Hwf Hm). }
  split; [|split].
  - intros k Hk. by rewrite Hdom, elem_of_index_keys_value.
  - intros k Hk%Hdom. by apply elem_of_index_keys.
  - intros s Hnull.
    rewrite <- (elem_of_index_keys_value skus (VStr (upper (strip (py_str s))))) by done.
    rewrite <- Hdom, elem_of_dom.
    unfold identify_and_map_sku, clean. rewrite Hnull. cbn [sku_to_msku_map].
    destruct (to_dict (zip (index_keys skus) mskus) !! VStr (upper (strip (py_str s))))
      as [msku|].
    + split; [by eexists | done].
    + split; [done | by intros [? ?]].
Qed.

Lemma load_mapping_keys_verbatim_witness :
  ∃ self',
    val (load_mapping scenario_files (MkSKUMapper ∅ None) "mapping.csv")
      = (Return true, self') ∧
    (∀ k, pd_isna k = false →
       (k ∈ dom (sku_to_msku_map self') ↔
        k ∈ [VStr "ABC123"; VStr "XYZ999"; VStr "ABC123"; VStr " low1 "])) ∧
    (∀ k, k ∈ dom (sku_to_msku_map self') →
       k ∈ [VStr "ABC123"; VStr "XYZ999"; VStr "ABC123"; VStr " low1 "] ∨
       ∃ i, k = VNaNBoxed i ∧
            [VStr "ABC123"; VStr "XYZ999"; VStr "ABC123"; VStr " low1 "] !! i = Some VNaN) ∧
    (∀ s, pd_isna s = false →
       (out (identify_and_map_sku self' s) = [] ↔
        VStr (upper (strip (py_str s)))
          ∈ [VStr "ABC123"; VStr "XYZ999"; VStr "ABC123"; VStr " low1 "])).
Proof.
  apply (load_mapping_keys_verbatim scenario_files (MkSKUMapper ∅ None) "mapping.csv"
           scenario_mapping
           [VStr "ABC123"; VStr "XYZ999"; VStr "ABC123"; VStr " low1 "]
           [VStr "M-0"; VStr "M-2"; VStr "M-1"; VStr "M-3"]).
  - discriminate.
  - reflexivity.
  - reflexivity.
  - reflexivity.
  - reflexivity.
Defined.

(** The load of the scenario file gives the scenario mapper. *)
Example load_mapping_scenario :
  val (load_mapping scenario_files (MkSKUMapper ∅ None) "mapping.csv")
    = (Return true, scenario_loaded).
Proof. reflexivity. Qed.

(** The raw key [" low1 "] is kept with its blanks and small letters, so
    no query can reach it: the query is normalised, the key is not. *)
Example load_mapping_raw_key_unreachable :
  let self' := (val (load_mapping scenario_files (MkSKUMapper ∅ None) "mapping.csv")).2 in
  sku_to_msku_map self' !! VStr " low1 " = Some (VStr "M-3") ∧
  val (identify_and_map_sku self' (VStr " low1 ")) = VStr " low1 " ∧
  val (identify_and_map_sku self' (VStr "LOW1")) = VStr "LOW1".
Proof. vm_compute. done. Qed.

(** C7.  A load from a file that is read and has both columns returns
    [True] and leaves a dict whose keys are unique: it has as many
    entries as the source has distinct SKU keys, and each of those keys
    has exactly one MSKU.  When several rows have the same SKU key, the
    MSKU of the last such row is the one kept.  Keys are the same as
    Python's [dict] has them: equal texts or numbers are one key, and
    the empty cells of a column without text are nan keys of their own,
    which no other row replaces. *)
Theorem load_mapping_last_row_wins read_csv self file_path mapping_df skus mskus :
  file_path ≠ "" →
  read_csv file_path = Parsed mapping_df →
  well_formed mapping_df = true →
  getitem "SKU" mapping_df = Some skus →
  getitem "MSKU" mapping_df = Some mskus →
  ∃ self',
    val (load_mapping read_csv self file_path) = (Return true, self') ∧
    size (sku_to_msku_map self') = length (remove_dups (index_keys skus)) ∧
    (∀ k, k ∈ index_keys skus →
       ∃ msku, ∀ msku', (k, msku') ∈ map_to_list (sku_to_msku_map self') ↔ msku' = msku) ∧
    (∀ i k msku,
       skus !! i = Some k → mskus !! i = Some msku → pd_isna k = false →
       (∀ j, i < j → skus !! j ≠ Some k) →
       sku_to_msku_map self' !! k = Some msku) ∧
    (∀ i k msku,
       index_keys skus !! i = Some k → mskus !! i = Some msku →
       (∀ j, i < j → index_keys skus !! j ≠ Some k) →
       sku_to_msku_map self' !! k = Some msku).
Proof.
  intros Hp Hread Hwf Hs Hm.
  rewrite (load_mapping_Parsed _ _ _ _ _ _ Hp Hread Hs Hm).
  eexists. split; [reflexivity|]. cbn [sku_to_msku_map].
  assert (length skus = length mskus) as Hlen
    by (by rewrite (well_formed_length _ _ _ Hwf Hs), (well_formed_length _ _ _ Hwf Hm)).
  split; [|split; [|split]].
  - by rewrite to_dict_size, fst_zip_index_keys.
  - intros k Hk.
    assert (k ∈ dom (to_dict (zip (index_keys skus) mskus))) as [msku Hmsku]%elem_of_dom
      by (by rewrite to_dict_dom, fst_zip_index_keys).
    exists msku. intros msku'. rewrite elem_of_map_to_list, Hmsku.
    split; [by intros [= ->] | by intros ->].
  - intros i k msku Hk Hv Hnull Hlast.
    apply (to_dict_zip_last_wins _ _ i);
      [by apply (index_keys_lookup_value skus i k Hnull) | done |].
    intros j Hj Hkj. apply (Hlast j Hj).
    by apply (index_keys_lookup_value skus j k Hnull).
  - intros i k msku Hk Hv Hlast. by apply (to_dict_zip_last_wins _ _ i).
Qed.

Lemma load_mapping_last_row_wins_witness :
  ∃ self',
    val (load_mapping scenario_files (MkSKUMapper ∅ None) "mapping.csv")
      = (Return true, self') ∧
    size (sku_to_msku_map self') = 3 ∧
    sku_to_msku_map self' !! VStr "ABC123" = Some (VStr "M-1").
Proof.
  destruct (load_mapping_last_row_wins scenario_files (MkSKUMapper ∅ None) "mapping.csv"
              scenario_mapping
              [VStr "ABC123"; VStr "XYZ999"; VStr "ABC123"; VStr " low1 "]
              [VStr "M-0"; VStr "M-2"; VStr "M-1"; VStr "M-3"])
    as (self' & Hret & Hsize & _ & Hlast & _).
  - discriminate.
  - reflexivity.
  - reflexivity.
  - reflexivity.
  - reflexivity.
  - exists self'. split; [exact Hret|]. split; [exact Hsize|].
    apply (Hlast 2 (VStr "ABC123") (VStr "M-1")); [reflexivity | reflexivity | reflexivity |].
    intros [|[|[|[|j]]]] Hj; (lia || done).
Defined.

(** A mapping file whose two SKU cells are both empty: the column holds
    no text, each empty cell is a nan key of its own, and the dict has
    two entries. *)
Example load_mapping_empty_cells :
  let r := load_mapping
             (λ _, Parsed (MkDataFrame 2 [("SKU", [VNaN; VNaN]);
                                          ("MSKU", [VStr "M-1"; VStr "M-2"])]))
             (MkSKUMapper ∅ None) "empty-skus.csv" in
  out r = [(INFO, "Loaded 2 SKU to MSKU mappings from empty-skus.csv")] ∧
  sku_to_msku_map (val r).2 !! VNaNBoxed 0 = Some (VStr "M-1") ∧
  sku_to_msku_map (val r).2 !! VNaNBoxed 1 = Some (VStr "M-2").
Proof. vm_compute. done. Qed.

(** With a text in the column the empty cells are one key, and the last
    of them is kept. *)
Example load_mapping_empty_cells_among_text :
  let r := load_mapping
             (λ _, Parsed (MkDataFrame 3 [("SKU", [VNaN; VStr "ABC123"; VNaN]);
                                          ("MSKU", [VStr "M-1"; VStr "M-2"; VStr "M-3"])]))
             (MkSKUMapper ∅ None) "some-empty.csv" in
  out r = [(INFO, "Loaded 2 SKU to MSKU mappings from some-empty.csv")] ∧
  sku_to_msku_map (val r).2 !! VNaN = Some (VStr "M-3").
Proof. vm_compute. done. Qed.

(** ** C8: failures of [process_sales_data] *)

(** Whenever a run raises, the mapper and the caller's table are as they
    were before the call. *)
Lemma process_sales_data_Raise self df e st :
  val (process_sales_data self df "SKU" "MSKU") = (Raise e, st) →
  st = (self, df) ∧ (sku_to_msku_map self = ∅ ∨ has_column "SKU" df = false).
Proof.
  intros H.
  destruct (decide (sku_to_msku_map self = ∅)) as [He|He].
  { unfold process_sales_data in H. rewrite decide_True in H by done.
    injection H as _ <-. split; [done | by left]. }
  destruct (getitem "SKU" df) as [skus|] eqn:Hsku.
  - by rewrite (process_sales_data_val _ _ skus) in H.
  - unfold process_sales_data in H. rewrite decide_False, Hsku in H by done.
    injection H as _ <-. split; [done|]. right. by apply getitem_None.
Qed.

(** C8.  When the mapping table is empty, or the sales table has no
    [SKU] column, [process_sales_data] raises [ValueError] after logging
    one error, and leaves the mapper and the table as they were: no
    column has been written. *)
Theorem process_sales_data_fails_before_writing self df :
  sku_to_msku_map self = ∅ ∨ has_column "SKU" df = false →
  ∃ msg line,
    val (process_sales_data self df "SKU" "MSKU") = (Raise (ValueError msg), (self, df)) ∧
    out (process_sales_data self df "SKU" "MSKU") = [(ERROR, line)].
Proof.
  intros Hcase. unfold process_sales_data.
  destruct (decide (sku_to_msku_map self = ∅)) as [He|He].
  - by eexists _, _.
  - destruct Hcase as [?|Hcol]; [done|].
    apply getitem_None in Hcol. rewrite Hcol. by eexists _, _.
Qed.

(** Scenario E. *)
Lemma process_sales_data_fails_before_writing_witness :
  ∃ msg line,
    val (process_sales_data scenario_mapper scenario_sales_no_sku "SKU" "MSKU")
      = (Raise (ValueError msg), (scenario_mapper, scenario_sales_no_sku)) ∧
    out (process_sales_data scenario_mapper scenario_sales_no_sku "SKU" "MSKU")
      = [(ERROR, line)].
Proof.
  apply (process_sales_data_fails_before_writing scenario_mapper scenario_sales_no_sku).
  right. reflexivity.
Defined.

(** The error of scenario E, in full. *)
Example process_sales_data_no_sku_column :
  process_sales_data scenario_mapper scenario_sales_no_sku "SKU" "MSKU" =
    MkLogged (Raise (ValueError "SKU column 'SKU' not found in the sales data."),
              (scenario_mapper, scenario_sales_no_sku))
             [(ERROR, "SKU column 'SKU' not found in the sales data.")].
Proof. vm_compute. reflexivity. Qed.

(** A fresh mapper, with nothing loaded, refuses the scenario table. *)
Example process_sales_data_unloaded :
  process_sales_data (val __init__) scenario_sales "SKU" "MSKU" =
    MkLogged (Raise (ValueError "SKU to MSKU mapping is not loaded."),
              (val __init__, scenario_sales))
             [(ERROR, "SKU to MSKU mapping is not loaded. Cannot process data.")].
Proof. vm_compute. reflexivity. Qed.

(** ** C9: what a run leaves alone *)

Lemma well_formed_pass3 self df skus :
  well_formed df = true → getitem "SKU" df = Some skus →
  well_formed (pass3 self df skus) = true.
Proof.
  intros Hwf Hsku. pose proof (well_formed_length _ _ _ Hwf Hsku) as Hlen.
  unfold pass3, pass2, pass1.
  repeat (apply well_formed_setitem; [|by rewrite ?length_fmap]).
  done.
Qed.

Lemma columns_setitem c cells df :
  columns (setitem c cells df) =
    if decide (c ∈ columns df) then columns df else columns df ++ [c].
Proof. unfold columns, setitem; cbn [data]. apply assign_fst. Qed.

Lemma columns_pass3 self df skus :
  getitem "SKU" df = Some skus →
  columns (pass3 self df skus) =
    if has_column "MSKU" df then columns df else columns df ++ ["MSKU"].
Proof.
  intros Hsku.
  assert ("SKU" ∈ columns df) as HS.
  { destruct (decide ("SKU" ∈ columns df)) as [|Hn]; [done|].
    apply assoc_None in Hn. unfold getitem in Hsku. congruence. }
  assert (columns (pass1 self df skus) =
          if has_column "MSKU" df then columns df else columns df ++ ["MSKU"]) as H1.
  { unfold pass1, has_column. rewrite columns_setitem.
    destruct (decide ("MSKU" ∈ columns df)).
    - by rewrite bool_decide_eq_true_2.
    - by rewrite bool_decide_eq_false_2. }
  assert ("SKU" ∈ columns (pass1 self df skus)) as HS1.
  { rewrite H1. destruct (has_column "MSKU" df); [done|]. apply elem_of_app. by left. }
  assert ("MSKU" ∈ columns (pass1 self df skus)) as HM1.
  { unfold pass1. rewrite columns_setitem.
    destruct (decide ("MSKU" ∈ columns df)); [done|].
    apply elem_of_app. right. by apply list_elem_of_singleton. }
  assert (columns (pass2 self df skus) = columns (pass1 self df skus)) as H2.
  { unfold pass2. rewrite columns_setitem. by rewrite decide_True. }
  unfold pass3. rewrite columns_setitem, H2. by rewrite decide_True.
Qed.

(** C9.  A run of [process_sales_data] that returns gives a table with
    the same number of rows, in the same order: every column other than
    [SKU] and [MSKU] is the column it was, cell for cell, and row [i] of
    the result holds what the classifier and the resolver give for row
    [i] of the input.  The column labels are those of the input, with
    [MSKU] added last when the input had none, and every column of the
    result has one cell per row. *)
Theorem process_sales_data_frame self df df' st :
  well_formed df = true →
  val (process_sales_data self df "SKU" "MSKU") = (Return df', st) →
  index_size df' = index_size df ∧
  well_formed df' = true ∧
  (∀ c, c ≠ "SKU" → c ≠ "MSKU" → getitem c df' = getitem c df) ∧
  columns df' = (if has_column "MSKU" df then columns df else columns df ++ ["MSKU"]) ∧
  (∀ c cells, getitem c df' = Some cells → length cells = index_size df) ∧
  (∀ i, cell "SKU" i df' = classify <$> cell "SKU" i df) ∧
  (∀ i, cell "MSKU" i df' = (λ s, resolve self (classify s)) <$> cell "SKU" i df).
Proof.
  intros Hwf (Hmap & skus & Hsku & -> & _)%process_sales_data_Return.
  pose proof (well_formed_pass3 self df skus Hwf Hsku) as Hwf'.
  assert (∀ i, cell "SKU" i df = skus !! i) as Hcell.
  { intros i. unfold cell. by rewrite Hsku. }
  split; [done|]. split; [done|]. split; [|split; [|split; [|split]]].
  - intros c HS HM. unfold pass3, pass2, pass1.
    by rewrite !getitem_setitem_ne.
  - by apply columns_pass3.
  - intros c cells Hc. by rewrite (well_formed_length _ _ _ Hwf' Hc).
  - intros i. by rewrite cell_pass3_SKU, Hcell.
  - intros i. by rewrite cell_pass3_MSKU, Hcell.
Qed.

Lemma process_sales_data_frame_witness :
  index_size scenario_sales_done = index_size scenario_sales ∧
  getitem "Qty" scenario_sales_done = getitem "Qty" scenario_sales.
Proof.
  destruct (process_sales_data_frame scenario_mapper scenario_sales scenario_sales_done
              (MkSKUMapper (sku_to_msku_map scenario_mapper) (Some scenario_sales_done),
               scenario_sales_done))
    as (Hn & _ & Hother & _).
  - reflexivity.
  - vm_compute. reflexivity.
  - split; [exact Hn | by apply Hother].
Defined.

(** ** C10: [handle_combo_products] without its column *)

(** C10.  Called on a table that lacks the SKU column,
    [handle_combo_products] raises nothing: it logs one warning and
    returns the table as it was given, whereas [process_sales_data]
    raises [ValueError] on the same table. *)
Theorem handle_combo_products_missing_column df sku_column combo_prefix :
  has_column sku_column df = false →
  handle_combo_products df sku_column combo_prefix =
    MkLogged df [(WARNING, "SKU column '" +:+ sku_column
                           +:+ "' not found for combo product handling.")] ∧
  ∀ self msku_column, sku_to_msku_map self ≠ ∅ →
    val (process_sales_data self df sku_column msku_column) =
      (Raise (ValueError ("SKU column '" +:+ sku_column
                          +:+ "' not found in the sales data.")), (self, df)).
Proof.
  intros Hcol%getitem_None. split.
  - unfold handle_combo_products. by rewrite Hcol.
  - intros self msku_column Hmap. unfold process_sales_data.
    rewrite decide_False by done. by rewrite Hcol.
Qed.

Lemma handle_combo_products_missing_column_witness :
  handle_combo_products scenario_sales_no_sku "SKU" "COMBO_" =
    MkLogged scenario_sales_no_sku
      [(WARNING, "SKU column 'SKU' not found for combo product handling.")].
Proof.
  refine (proj1 (handle_combo_products_missing_column scenario_sales_no_sku "SKU" "COMBO_" _)).
  reflexivity.
Defined.

(** * Further properties of the mapper *)

(** ** Normal forms of text *)

Lemma upper_char_idemp c : upper_char (upper_char c) = upper_char c.
Proof. by destruct c as [[] [] [] [] [] [] [] []]. Qed.

Lemma isspace_upper_char c : isspace (upper_char c) = isspace c.
Proof. by destruct c as [[] [] [] [] [] [] [] []]. Qed.

Lemma upper_idemp s : upper (upper s) = upper s.
Proof. induction s as [|c s IH]; cbn; [done|]. by rewrite upper_char_idemp, IH. Qed.

Lemma lstrip_upper s : lstrip (upper s) = upper (lstrip s).
Proof.
  induction s as [|c s IH]; cbn; [done|].
  rewrite isspace_upper_char. by destruct (isspace c).
Qed.

Lemma rstrip_upper s : rstrip (upper s) = upper (rstrip s).
Proof.
  induction s as [|c s IH]; cbn; [done|].
  rewrite IH, isspace_upper_char.
  destruct (rstrip s); cbn; [by destruct (isspace c) | done].
Qed.

Lemma strip_upper s : strip (upper s) = upper (strip s).
Proof. unfold strip. by rewrite lstrip_upper, rstrip_upper. Qed.

Lemma rstrip_idemp s : rstrip (rstrip s) = rstrip s.
Proof.
  induction s as [|c s IH]; cbn; [done|].
  destruct (rstrip s) as [|a r] eqn:Hr.
  - destruct (isspace c) eqn:Hc; cbn; [done|]. by rewrite Hc.
  - change (rstrip (String c (String a r))) with
      (match rstrip (String a r) with
       | EmptyString => if isspace c then EmptyString else String c EmptyString
       | r' => String c r'
       end).
    by rewrite IH.
Qed.

(** A text that does not start with a blank keeps its first character
    under [rstrip]. *)
Lemma lstrip_rstrip_head c s :
  isspace c = false → lstrip (rstrip (String c s)) = rstrip (String c s).
Proof.
  intros Hc. cbn. destruct (rstrip s); cbn; by rewrite ?Hc; cbn; rewrite ?Hc.
Qed.

Lemma lstrip_head s : lstrip s = EmptyString ∨ ∃ c t, lstrip s = String c t ∧ isspace c = false.
Proof.
  induction s as [|c s IH]; cbn; [by left|].
  destruct (isspace c) eqn:Hc; [done|]. right. by exists c, s.
Qed.

Lemma strip_idemp s : strip (strip s) = strip s.
Proof.
  unfold strip. destruct (lstrip_head s) as [-> | (c & t & -> & Hc)]; [done|].
  by rewrite lstrip_rstrip_head, rstrip_idemp.
Qed.

Lemma append_cons a s t : String a s +:+ t = String a (s +:+ t).
Proof. reflexivity. Qed.

Lemma append_nil t : EmptyString +:+ t = t.
Proof. reflexivity. Qed.

Lemma rstrip_app_blank s c : isspace c = true → rstrip (s +:+ String c EmptyString) = rstrip s.
Proof.
  intros Hc. induction s as [|a s IH].
  - rewrite append_nil. cbn. by rewrite Hc.
  - rewrite append_cons. cbn. by rewrite IH.
Qed.

Lemma strip_app_blank s c : isspace c = true → strip (s +:+ String c EmptyString) = strip s.
Proof.
  intros Hc. unfold strip. induction s as [|a s IH].
  - rewrite append_nil. cbn. by rewrite Hc.
  - rewrite append_cons. cbn [lstrip]. destruct (isspace a); [done|].
    by rewrite <- append_cons, rstrip_app_blank.
Qed.

Lemma clean_idemp v : clean (VStr (clean v)) = clean v.
Proof.
  unfold clean; cbn [py_str]. by rewrite strip_upper, upper_idemp, strip_idemp.
Qed.

Lemma clean_upper s : clean (VStr (upper s)) = clean (VStr s).
Proof. unfold clean; cbn [py_str]. by rewrite strip_upper, upper_idemp. Qed.

Lemma clean_padded s : clean (VStr (" " +:+ s +:+ " ")) = clean (VStr s).
Proof.
  unfold clean; cbn [py_str]. f_equal.
  change (" " +:+ s +:+ " ") with (String " " (s +:+ " ")).
  unfold strip at 1. cbn [lstrip]. change (isspace " ") with true. cbn iota.
  by apply (strip_app_blank s " ").
Qed.

(** ** The resolver: spelling, key types *)

(** X1.  A lookup does not see letter case or surrounding blanks: when a text
    is mapped, so are its upper-case form, the text with a blank on
    either side, and its normal form, all to the same MSKU and without a
    miss warning. *)
Theorem identify_and_map_sku_spelling self s msku :
  sku_to_msku_map self !! VStr (upper (strip s)) = Some msku →
  identify_and_map_sku self (VStr s) = MkLogged msku [] ∧
  identify_and_map_sku self (VStr (upper s)) = MkLogged msku [] ∧
  identify_and_map_sku self (VStr (" " +:+ s +:+ " ")) = MkLogged msku [] ∧
  identify_and_map_sku self (VStr (upper (strip s))) = MkLogged msku [].
Proof.
  intros Hk.
  assert (∀ t, clean (VStr t) = clean (VStr s) →
               identify_and_map_sku self (VStr t) = MkLogged msku []) as Hsame.
  { intros t Ht. unfold identify_and_map_sku. cbn [pd_isna]. rewrite Ht.
    unfold clean; cbn [py_str]. by rewrite Hk. }
  repeat split; apply Hsame.
  - done.
  - apply clean_upper.
  - apply clean_padded.
  - apply (clean_idemp (VStr s)).
Qed.

Lemma identify_and_map_sku_spelling_witness :
  identify_and_map_sku scenario_mapper (VStr " abc123 ") = MkLogged (VStr "M-1") [] ∧
  identify_and_map_sku scenario_mapper (VStr "  abc123  ") = MkLogged (VStr "M-1") [].
Proof.
  destruct (identify_and_map_sku_spelling scenario_mapper " abc123 " (VStr "M-1"))
    as (H1 & _ & H3 & _).
  - vm_compute. reflexivity.
  - split; [exact H1 | exact H3].
Defined.

(** X2.  Keys are compared as Python compares them, and the query is always a
    text: under a mapping none of whose keys is a text (a mapping file
    whose SKU column holds only numbers), every lookup misses and every
    non-null SKU comes back as it was given. *)
Theorem identify_and_map_sku_no_text_key self s :
  (∀ k msku, sku_to_msku_map self !! k = Some msku → ∀ t, k ≠ VStr t) →
  pd_isna s = false →
  val (identify_and_map_sku self s) = s ∧
  ∃ msg, out (identify_and_map_sku self s) = [(WARNING, msg)].
Proof.
  intros Hkeys Hs. unfold identify_and_map_sku. rewrite Hs.
  destruct (sku_to_msku_map self !! VStr (clean s)) as [msku|] eqn:Hk.
  - by destruct (Hkeys _ _ Hk (clean s)).
  - split; [done | by eexists].
Qed.

(** A mapping file read with a numeric SKU column. *)
Lemma identify_and_map_sku_no_text_key_witness :
  val (identify_and_map_sku (MkSKUMapper {[VInt 42 := VStr "M-42"]} None) (VInt 42)) = VInt 42 ∧
  val (identify_and_map_sku (MkSKUMapper {[VInt 42 := VStr "M-42"]} None) (VStr "42")) = VStr "42".
Proof.
  assert (∀ k msku, sku_to_msku_map (MkSKUMapper {[VInt 42 := VStr "M-42"]} None) !! k = Some msku →
                    ∀ t, k ≠ VStr t) as Hkeys.
  { intros k msku Hk t ->. cbn in Hk. by rewrite lookup_singleton_ne in Hk. }
  split.
  - refine (proj1 (identify_and_map_sku_no_text_key _ (VInt 42) Hkeys _)). reflexivity.
  - refine (proj1 (identify_and_map_sku_no_text_key _ (VStr "42") Hkeys _)). reflexivity.
Defined.

(** ** Rows of a returned table *)

(** X3.  In a run that returns, a row whose SKU is not a combo keeps its SKU
    as it was, and its MSKU is the mapped value when the normal form of
    the SKU is a key, and the SKU itself when it is not. *)
Theorem other_row_after_transform self df df' st i s :
  val (process_sales_data self df "SKU" "MSKU") = (Return df', st) →
  cell "SKU" i df = Some s →
  pd_isna s = false →
  startswith (clean s) "COMBO_" = false →
  cell "SKU" i df' = Some s ∧
  (∀ msku, sku_to_msku_map self !! VStr (clean s) = Some msku →
     cell "MSKU" i df' = Some msku) ∧
  (sku_to_msku_map self !! VStr (clean s) = None → cell "MSKU" i df' = Some s).
Proof.
  intros (Hmap & skus & Hsku & -> & _)%process_sales_data_Return Hcell Hs Hcombo.
  apply cell_Some in Hcell as (skus' & Hsku' & Hi).
  rewrite Hsku in Hsku'. injection Hsku' as <-.
  rewrite cell_pass3_SKU, cell_pass3_MSKU, Hi. cbn.
  rewrite (classify_other s Hcombo). split; [done|]. split.
  - intros msku Hk. f_equal. by apply resolve_hit.
  - intros Hk. f_equal. by apply resolve_miss.
Qed.

Lemma other_row_after_transform_witness :
  cell "SKU" 0 scenario_sales_done = Some (VStr " abc123 ") ∧
  cell "MSKU" 0 scenario_sales_done = Some (VStr "M-1").
Proof.
  destruct (other_row_after_transform scenario_mapper scenario_sales scenario_sales_done
              (MkSKUMapper (sku_to_msku_map scenario_mapper) (Some scenario_sales_done),
               scenario_sales_done)
              0 (VStr " abc123 "))
    as (HS & HM & _).
  - vm_compute. reflexivity.
  - reflexivity.
  - reflexivity.
  - reflexivity.
  - split; [exact HS | apply HM; vm_compute; reflexivity].
Defined.

(** X4.  In a run that returns, no MSKU cell is made up: the MSKU of a row is
    [None] (for a null SKU), a value stored in the mapping, the SKU the
    row came with, or the combo placeholder. *)
Theorem msku_cells_after_transform self df df' st i msku :
  val (process_sales_data self df "SKU" "MSKU") = (Return df', st) →
  cell "MSKU" i df' = Some msku →
  ∃ s, cell "SKU" i df = Some s ∧
    ((pd_isna s = true ∧ msku = VNone) ∨
     (∃ k, sku_to_msku_map self !! k = Some msku) ∨
     msku = s ∨
     msku = VStr "COMBO_MSKU").
Proof.
  intros (Hmap & skus & Hsku & -> & _)%process_sales_data_Return Hcell.
  rewrite cell_pass3_MSKU in Hcell.
  destruct (skus !! i) as [s|] eqn:Hi; [|done]. injection Hcell as <-.
  exists s. split; [unfold cell; by rewrite Hsku|].
  assert (∀ v, resolve self v = VNone ∧ pd_isna v = true ∨
               (∃ k, sku_to_msku_map self !! k = Some (resolve self v)) ∨
               resolve self v = v) as Hres.
  { intros v. unfold resolve, identify_and_map_sku.
    destruct (pd_isna v); [by left|].
    destruct (sku_to_msku_map self !! VStr (clean v)) as [m|] eqn:Hk.
    - right; left. by exists (VStr (clean v)).
    - by right; right. }
  destruct (classify_cases s) as [Hc|Hc]; rewrite Hc.
  - destruct (Hres (VStr "COMBO_MSKU")) as [[_ ?]|[?|?]]; [done| |]; auto.
  - destruct (Hres s) as [[? ?]|[?|?]]; auto.
Qed.

Lemma msku_cells_after_transform_witness :
  ∃ s, cell "SKU" 3 scenario_sales = Some s ∧
    ((pd_isna s = true ∧ VStr "UNKNOWN1" = VNone) ∨
     (∃ k, sku_to_msku_map scenario_mapper !! k = Some (VStr "UNKNOWN1")) ∨
     VStr "UNKNOWN1" = s ∨
     VStr "UNKNOWN1" = VStr "COMBO_MSKU").
Proof.
  apply (msku_cells_after_transform scenario_mapper scenario_sales scenario_sales_done
           (MkSKUMapper (sku_to_msku_map scenario_mapper) (Some scenario_sales_done),
            scenario_sales_done) 3 (VStr "UNKNOWN1")).
  - vm_compute. reflexivity.
  - reflexivity.
Defined.

(** ** [process_sales_data] with any column names *)

Lemma getitem_setitem_is_Some c c' x df :
  is_Some (getitem c df) → is_Some (getitem c (setitem c' x df)).
Proof.
  intros H. destruct (decide (c' = c)) as [->|Hne].
  - rewrite getitem_setitem_eq. by eexists.
  - by rewrite getitem_setitem_ne.
Qed.

(** X5.  Whatever the two column names are, also when they are the same name,
    a call either returns the table it updated and records it in
    [processed_data], or raises [ValueError] and leaves the mapper and
    the table alone; the unguarded second [df[sku_column]] never raises
    its [KeyError].  The mapping table is the same after the call. *)
Theorem process_sales_data_outcomes self df sku_column msku_column :
  (∃ df', val (process_sales_data self df sku_column msku_column) =
            (Return df', (MkSKUMapper (sku_to_msku_map self) (Some df'), df')) ∧
          sku_to_msku_map self ≠ ∅ ∧ has_column sku_column df = true ∧
          has_column sku_column df' = true ∧ has_column msku_column df' = true) ∨
  (∃ msg, val (process_sales_data self df sku_column msku_column) =
            (Raise (ValueError msg), (self, df)) ∧
          (sku_to_msku_map self = ∅ ∨ has_column sku_column df = false)).
Proof.
  unfold process_sales_data.
  destruct (decide (sku_to_msku_map self = ∅)) as [He|He].
  { right. eexists. split; [done | by left]. }
  destruct (getitem sku_column df) as [skus|] eqn:Hsku.
  2:{ right. eexists. split; [done|]. right. by apply getitem_None. }
  left. rewrite val_bind, val_Series_apply, val_bind.
  set (df1 := setitem msku_column _ df).
  destruct (getitem_setitem_is_Some sku_column msku_column
              ((λ x, val (identify_and_map_sku self x)) <$> skus) df) as [skus1 Hsku1].
  { rewrite Hsku. by eexists. }
  fold df1 in Hsku1.
  rewrite (handle_combo_products_val _ _ _ skus1) by done.
  rewrite getitem_setitem_eq, val_bind, val_Series_apply.
  eexists. split; [reflexivity|]. split; [done|].
  assert (∀ c d, is_Some (getitem c d) → has_column c d = true) as Hhas.
  { intros c d [x Hx]. destruct (has_column c d) eqn:Hc; [done|].
    apply getitem_None in Hc. congruence. }
  split; [apply Hhas; rewrite Hsku; by eexists|]. split; apply Hhas.
  - apply getitem_setitem_is_Some. rewrite getitem_setitem_eq. by eexists.
  - rewrite getitem_setitem_eq. by eexists.
Qed.

(** X6.  What a table holds in its [MSKU] column before a run has no effect
    on what the run returns or logs: the column is overwritten from the
    [SKU] column. *)
Theorem process_sales_data_ignores_old_MSKU self df old :
  (val (process_sales_data self (setitem "MSKU" old df) "SKU" "MSKU")).1 =
  (val (process_sales_data self df "SKU" "MSKU")).1 ∧
  out (process_sales_data self (setitem "MSKU" old df) "SKU" "MSKU") =
  out (process_sales_data self df "SKU" "MSKU").
Proof.
  destruct (decide (sku_to_msku_map self = ∅)) as [He|He].
  { unfold process_sales_data. by rewrite !decide_True. }
  assert (getitem "SKU" (setitem "MSKU" old df) = getitem "SKU" df) as HS
    by (by apply getitem_setitem_ne).
  destruct (getitem "SKU" df) as [skus|] eqn:Hsku.
  - rewrite !(process_sales_data_val _ _ skus), !(process_sales_data_out _ _ skus) by done.
    split; [|done]. cbn [fst]. f_equal.
    unfold pass3, pass2, pass1. by rewrite setitem_setitem.
  - unfold process_sales_data. rewrite !decide_False by done. by rewrite HS, Hsku.
Qed.

(** ** [handle_combo_products] on a table that has the column *)

(** X7.  With the default prefix, [handle_combo_products] keeps the number of
    rows, the column labels and every other column; it rewrites the
    cells of its column one by one; and applied to its own result it
    changes nothing more. *)
Theorem handle_combo_products_frame df sku_column :
  let df' := val (handle_combo_products df sku_column "COMBO_") in
  index_size df' = index_size df ∧
  columns df' = columns df ∧
  (∀ c, c ≠ sku_column → getitem c df' = getitem c df) ∧
  (∀ i, cell sku_column i df' = classify <$> cell sku_column i df) ∧
  val (handle_combo_products df' sku_column "COMBO_") = df'.
Proof.
  cbn zeta. destruct (getitem sku_column df) as [skus|] eqn:Hsku.
  - rewrite (handle_combo_products_val _ _ _ skus) by done. fold classify.
    split; [done|]. split; [|split; [|split]].
    + rewrite columns_setitem. rewrite decide_True; [done|].
      destruct (decide (sku_column ∈ columns df)) as [|Hn]; [done|].
      apply assoc_None in Hn. unfold getitem in Hsku. congruence.
    + intros c Hc. by rewrite getitem_setitem_ne.
    + intros i. unfold cell. rewrite getitem_setitem_eq, Hsku. cbn.
      by rewrite list_lookup_fmap.
    + rewrite (handle_combo_products_val _ _ _ (classify <$> skus))
        by apply getitem_setitem_eq.
      fold classify. rewrite setitem_setitem. f_equal.
      rewrite <- list_fmap_compose. apply list_fmap_ext.
      intros _ v _. apply classify_idemp.
  - assert (val (handle_combo_products df sku_column "COMBO_") = df) as Hid.
    { unfold handle_combo_products. by rewrite Hsku. }
    rewrite !Hid.
    split; [done|]. split; [done|]. split; [done|]. split; [|done].
    intros i. unfold cell. by rewrite Hsku.
Qed.

Lemma prefix_upper p t : String.prefix p (upper t) = true → upper p = p.
Proof.
  revert t. induction p as [|a p IH]; intros [|b t]; cbn; try done.
  destruct (ascii_dec a (upper_char b)) as [->|]; [|done].
  intros H. by rewrite upper_char_idemp, (IH t).
Qed.

(** X8.  The prefix is compared with the upper-cased SKU, so a prefix that is
    not itself in upper case matches nothing: the table comes back as it
    was given, and no combo is reported. *)
Theorem handle_combo_products_lowercase_prefix df sku_column combo_prefix :
  upper combo_prefix ≠ combo_prefix →
  val (handle_combo_products df sku_column combo_prefix) = df ∧
  ∀ l msg, (l, msg) ∈ out (handle_combo_products df sku_column combo_prefix) →
    msg = "Combo product handling applied." ∨ l = WARNING.
Proof.
  intros Hp.
  assert (∀ v, _process_combo combo_prefix v = MkLogged v []) as Hcell.
  { intros v. unfold _process_combo. destruct (pd_isna v); [done|].
    destruct (startswith (clean v) combo_prefix) eqn:Hpre; [|done].
    destruct Hp. by apply (prefix_upper _ (strip (py_str v))). }
  assert (∀ cells, Series_apply (_process_combo combo_prefix) cells = MkLogged cells []) as Happly.
  { induction cells as [|x rest IH]; [done|]. cbn [Series_apply]. by rewrite Hcell, IH. }
  unfold handle_combo_products.
  destruct (getitem sku_column df) as [skus|] eqn:Hsku.
  - rewrite Happly. split.
    + cbn. by apply setitem_id.
    + intros l msg. cbn. rewrite list_elem_of_singleton. intros [= -> ->]. by left.
  - split; [done|]. intros l msg. cbn. rewrite list_elem_of_singleton.
    intros [= -> ->]. by right.
Qed.

Lemma handle_combo_products_lowercase_prefix_witness :
  val (handle_combo_products scenario_sales "SKU" "combo_") = scenario_sales.
Proof.
  refine (proj1 (handle_combo_products_lowercase_prefix scenario_sales "SKU" "combo_" _)).
  vm_compute. discriminate.
Defined.

(** ** [load_mapping]: outcomes *)

(** X9.  A load that raises leaves the mapper as it was, so an earlier
    mapping stays in use; it logs one record; and it raises
    [FileNotFoundError] exactly when the path is not empty and the file
    is missing, [ValueError] in every other case. *)
Theorem load_mapping_failure read_csv self file_path e self' :
  val (load_mapping read_csv self file_path) = (Raise e, self') →
  self' = self ∧
  (∃ l line, out (load_mapping read_csv self file_path) = [(l, line)]) ∧
  ((file_path ≠ "" ∧ read_csv file_path = NotFound ∧
    e = FileNotFoundError ("Mapping file not found: " +:+ file_path)) ∨
   (∃ msg, e = ValueError msg ∧ (file_path = "" ∨ read_csv file_path ≠ NotFound))).
Proof.
  unfold load_mapping. destruct (decide (file_path = "")) as [->|Hp].
  { intros [= <- <-]. split; [done|]. split; [by eexists _, _|]. right. eexists. by split; [|left]. }
  destruct (read_csv file_path) as [mapping_df| |msg] eqn:Hread.
  - destruct (getitem "SKU" mapping_df) as [skus|];
      [destruct (getitem "MSKU" mapping_df) as [mskus|]|];
      [done| |]; intros [= <- <-];
      (split; [done|]; split; [by eexists _, _|]; right; eexists; by split; [|right]).
  - intros [= <- <-]. split; [done|]. split; [by eexists _, _|]. by left.
  - intros [= <- <-]. split; [done|]. split; [by eexists _, _|]. right. eexists. by split; [|right].
Qed.

Lemma load_mapping_failure_witness :
  ∃ l line, out (load_mapping scenario_files scenario_mapper "missing.csv") = [(l, line)].
Proof.
  destruct (load_mapping_failure scenario_files scenario_mapper "missing.csv"
              (FileNotFoundError "Mapping file not found: missing.csv") scenario_mapper)
    as (_ & H2 & _).
  - reflexivity.
  - exact H2.
Defined.

(** X10.  A load returns [True] exactly when the path is not empty, the file
    is read, and the table read has both a [SKU] and an [MSKU] column. *)
Theorem load_mapping_succeeds_iff read_csv self file_path :
  (∃ self', val (load_mapping read_csv self file_path) = (Return true, self')) ↔
  file_path ≠ "" ∧
  ∃ mapping_df, read_csv file_path = Parsed mapping_df ∧
    has_column "SKU" mapping_df = true ∧ has_column "MSKU" mapping_df = true.
Proof.
  assert (∀ c d, has_column c d = true ↔ is_Some (getitem c d)) as Hhas.
  { intros c d. destruct (getitem c d) as [x|] eqn:Hx.
    - split; [by eexists|]. intros _. destruct (has_column c d) eqn:Hc; [done|].
      apply getitem_None in Hc. congruence.
    - apply getitem_None in Hx. rewrite Hx. split; [done | by intros [? ?]]. }
  split.
  - intros [self' H]. pose proof H as Hne.
    apply load_mapping_Return in H as (df & skus & mskus & Hread & Hs & Hm & _).
    split.
    + intros ->. unfold load_mapping in Hne. by rewrite decide_True in Hne.
    + exists df. rewrite !Hhas, Hs, Hm. split; [done|]. by split; eexists.
  - intros (Hp & df & Hread & [skus Hs]%Hhas & [mskus Hm]%Hhas).
    unfold load_mapping. rewrite decide_False, Hread, Hs, Hm by done. by eexists.
Qed.

(** Scenario D: without the [MSKU] column the load raises
    [ValueError], through the handler that wraps every error raised in
    the [try] block. *)
Example load_mapping_missing_column :
  load_mapping (λ _, Parsed (MkDataFrame 1 [("SKU", [VStr "ABC123"])])) scenario_mapper "m.csv" =
    MkLogged
      (Raise (ValueError
         "Error loading mapping file: Mapping file must contain 'SKU' and 'MSKU' columns."),
       scenario_mapper)
      [(ERROR,
        "Error loading mapping file m.csv: Mapping file must contain 'SKU' and 'MSKU' columns.")].
Proof. vm_compute. reflexivity. Qed.

Lemma index_keys_values cells :
  Forall (λ k, pd_isna k = false) cells → index_keys cells = cells.
Proof.
  intros Hall. apply list_eq. intros i. rewrite index_keys_lookup.
  destruct (cells !! i) as [v|] eqn:Hi; cbn; [|done].
  rewrite Forall_lookup in Hall. specialize (Hall i v Hi).
  destruct (numeric_column cells); [|done]. by destruct v.
Qed.

Lemma index_keys_empty_cells cells :
  Forall (λ k, k = VNaN) cells → NoDup (index_keys cells).
Proof.
  intros Hall. rewrite Forall_lookup in Hall.
  assert (numeric_column cells = true) as Hnum.
  { unfold numeric_column. apply forallb_forall. intros v Hv.
    apply list_elem_of_In, list_elem_of_lookup in Hv as [i Hi]. by rewrite (Hall i v Hi). }
  apply NoDup_alt. intros i j k. rewrite !index_keys_lookup, Hnum.
  destruct (cells !! i) as [vi|] eqn:Hi; [|done].
  destruct (cells !! j) as [vj|] eqn:Hj; [|done].
  rewrite (Hall i vi Hi), (Hall j vj Hj). cbn. by intros [= <-] [= ?].
Qed.

Lemma remove_dups_NoDup (l : list value) : NoDup l → remove_dups l = l.
Proof.
  induction 1 as [|x l Hx _ IH]; cbn; [done|].
  destruct (decide_rel (∈) x l); [done|]. by rewrite IH.
Qed.

(** X11.  The number a load logs is the number of entries of the dict,
    that is of distinct keys among the rows: at most the number of rows;
    for a column without empty cells the number of distinct SKU cells,
    fewer than the rows when a SKU is repeated; and for a column of empty
    cells only the number of rows, every one being a key of its own. *)
Theorem load_mapping_logged_count read_csv self file_path mapping_df skus mskus :
  file_path ≠ "" →
  read_csv file_path = Parsed mapping_df →
  well_formed mapping_df = true →
  getitem "SKU" mapping_df = Some skus →
  getitem "MSKU" mapping_df = Some mskus →
  ∃ n,
    out (load_mapping read_csv self file_path) =
      [(INFO, "Loaded " +:+ string_of_nat n
              +:+ " SKU to MSKU mappings from " +:+ file_path)] ∧
    size (sku_to_msku_map (val (load_mapping read_csv self file_path)).2) = n ∧
    n = length (remove_dups (index_keys skus)) ∧
    (n ≤ index_size mapping_df)%nat ∧
    (Forall (λ k, pd_isna k = false) skus → n = length (remove_dups skus)) ∧
    (Forall (λ k, k = VNaN) skus → n = index_size mapping_df).
Proof.
  intros Hp Hread Hwf Hs Hm.
  rewrite (load_mapping_Parsed _ _ _ _ _ _ Hp Hread Hs Hm). cbn [val out snd sku_to_msku_map].
  pose proof (well_formed_length _ _ _ Hwf Hs) as Hls.
  pose proof (well_formed_length _ _ _ Hwf Hm) as Hlm.
  assert (size (to_dict (zip (index_keys skus) mskus)) = length (remove_dups (index_keys skus)))
    as Hsize by (rewrite to_dict_size, fst_zip_index_keys; [done | lia]).
  eexists. split; [reflexivity|]. split; [done|]. split; [done|].
  rewrite Hsize. split; [|split].
  - rewrite <- Hls, <- (length_index_keys skus).
    apply submseteq_length, NoDup_submseteq; [apply NoDup_remove_dups|].
    intros x. by rewrite elem_of_remove_dups.
  - intros Hall. by rewrite index_keys_values.
  - intros Hall. by rewrite remove_dups_NoDup, length_index_keys
      by (by apply index_keys_empty_cells).
Qed.

Lemma load_mapping_logged_count_witness :
  ∃ n,
    out (load_mapping scenario_files (MkSKUMapper ∅ None) "mapping.csv") =
      [(INFO, "Loaded " +:+ string_of_nat n +:+ " SKU to MSKU mappings from mapping.csv")] ∧
    n = 3.
Proof.
  destruct (load_mapping_logged_count scenario_files (MkSKUMapper ∅ None) "mapping.csv"
              scenario_mapping
              [VStr "ABC123"; VStr "XYZ999"; VStr "ABC123"; VStr " low1 "]
              [VStr "M-0"; VStr "M-2"; VStr "M-1"; VStr "M-3"])
    as (n & Hout & _ & _ & _ & Hvalues & _).
  - discriminate.
  - reflexivity.
  - reflexivity.
  - reflexivity.
  - reflexivity.
  - exists n. split; [exact Hout|]. rewrite Hvalues; [reflexivity|].
    repeat constructor.
Defined.

(** ** Loading, then processing *)

Lemma to_dict_empty_iff pairs : to_dict pairs = ∅ ↔ pairs = [].
Proof.
  split; [|by intros ->].
  destruct pairs as [|kv pairs _] using rev_ind; [done|].
  destruct kv as [k v]. rewrite to_dict_snoc. intros H.
  by apply insert_non_empty in H.
Qed.

(** X12.  A mapping file with its two headers and no rows loads without an
    error, but leaves the mapper empty, and [process_sales_data] then
    refuses every table as if nothing had been loaded.  With at least one
    row, every table that has a [SKU] column is processed. *)
Theorem load_mapping_without_rows read_csv self file_path mapping_df self' :
  read_csv file_path = Parsed mapping_df →
  well_formed mapping_df = true →
  val (load_mapping read_csv self file_path) = (Return true, self') →
  (sku_to_msku_map self' = ∅ ↔ index_size mapping_df = 0) ∧
  (index_size mapping_df = 0 → ∀ df,
     val (process_sales_data self' df "SKU" "MSKU") =
       (Raise (ValueError "SKU to MSKU mapping is not loaded."), (self', df))) ∧
  (index_size mapping_df ≠ 0 → ∀ df, has_column "SKU" df = true →
     ∃ df' st, val (process_sales_data self' df "SKU" "MSKU") = (Return df', st)).
Proof.
  intros Hread Hwf (df & skus & mskus & Hread' & Hs & Hm & _ & ->)%load_mapping_Return.
  rewrite Hread in Hread'. injection Hread' as <-.
  pose proof (well_formed_length _ _ _ Hwf Hs) as Hls.
  pose proof (well_formed_length _ _ _ Hwf Hm) as Hlm.
  assert (to_dict (zip (index_keys skus) mskus) = ∅ ↔ index_size mapping_df = 0) as Hempty.
  { rewrite to_dict_empty_iff, <- Hls, <- (length_index_keys skus).
    rewrite <- Hlm, <- (length_index_keys skus) in Hls.
    destruct (index_keys skus), mskus; cbn in *; try done; lia. }
  split; [done|]. split.
  - intros H0 df. unfold process_sales_data. cbn [sku_to_msku_map].
    rewrite decide_True; [done | by apply Hempty].
  - intros H0 df Hcol.
    destruct (getitem "SKU" df) as [cells|] eqn:Hc.
    + eexists _, _. apply (process_sales_data_val _ _ cells); [|done].
      cbn [sku_to_msku_map]. by rewrite Hempty.
    + apply getitem_None in Hc. congruence.
Qed.

Lemma load_mapping_without_rows_witness :
  val (process_sales_data (MkSKUMapper (to_dict (zip [] [])) None) scenario_sales "SKU" "MSKU") =
    (Raise (ValueError "SKU to MSKU mapping is not loaded."),
     (MkSKUMapper (to_dict (zip [] [])) None, scenario_sales)).
Proof.
  destruct (load_mapping_without_rows
              (λ _, Parsed (MkDataFrame 0 [("SKU", []); ("MSKU", [])]))
              (MkSKUMapper ∅ None) "empty.csv"
              (MkDataFrame 0 [("SKU", []); ("MSKU", [])])
              (MkSKUMapper (to_dict (zip [] [])) None))
    as (_ & H0 & _).
  - reflexivity.
  - reflexivity.
  - reflexivity.
  - apply H0. reflexivity.
Defined.

(** X13.  From file to table.  After a load, a run over a sales table gives a
    row whose SKU is a non-null, non-combo value with normal form [k] the
    MSKU of the last row of the mapping file whose raw SKU cell is the
    text [k], and leaves the row's SKU as it was. *)
Theorem load_then_process read_csv self file_path mapping_df self' skus mskus df i j s msku :
  read_csv file_path = Parsed mapping_df →
  val (load_mapping read_csv self file_path) = (Return true, self') →
  getitem "SKU" mapping_df = Some skus →
  getitem "MSKU" mapping_df = Some mskus →
  skus !! j = Some (VStr (upper (strip (py_str s)))) →
  mskus !! j = Some msku →
  (∀ j', j < j' → skus !! j' ≠ Some (VStr (upper (strip (py_str s))))) →
  cell "SKU" i df = Some s →
  pd_isna s = false →
  startswith (upper (strip (py_str s))) "COMBO_" = false →
  ∃ df' st,
    val (process_sales_data self' df "SKU" "MSKU") = (Return df', st) ∧
    cell "SKU" i df' = Some s ∧
    cell "MSKU" i df' = Some msku.
Proof.
  intros Hread (mdf & skus' & mskus' & Hread' & Hs & Hm & _ & ->)%load_mapping_Return
    Hs' Hm' Hj Hv Hlast Hcell Hnull Hcombo.
  rewrite Hread in Hread'. injection Hread' as <-.
  rewrite Hs in Hs'. injection Hs' as ->. rewrite Hm in Hm'. injection Hm' as ->.
  set (self' := MkSKUMapper (to_dict (zip (index_keys skus) mskus)) (processed_data self)).
  assert (sku_to_msku_map self' !! VStr (clean s) = Some msku) as Hk.
  { cbn [self' sku_to_msku_map]. apply (to_dict_zip_last_wins _ _ j).
    - by apply (index_keys_lookup_value skus j (VStr (clean s))).
    - done.
    - intros j' Hlt Hkj. apply (Hlast j' Hlt).
      by apply (index_keys_lookup_value skus j' (VStr (clean s))). }
  apply cell_Some in Hcell as (cells & Hc & Hi).
  eexists _, _. split.
  - apply (process_sales_data_val _ _ cells); [|done].
    intros He. by rewrite He in Hk.
  - rewrite cell_pass3_SKU, cell_pass3_MSKU, Hi. cbn.
    rewrite (classify_other s Hcombo). split; [done|]. f_equal.
    by apply resolve_hit.
Qed.

Lemma load_then_process_witness :
  ∃ df' st,
    val (process_sales_data scenario_loaded scenario_sales "SKU" "MSKU") = (Return df', st) ∧
    cell "SKU" 0 df' = Some (VStr " abc123 ") ∧
    cell "MSKU" 0 df' = Some (VStr "M-1").
Proof.
  apply (load_then_process scenario_files (MkSKUMapper ∅ None) "mapping.csv"
           scenario_mapping scenario_loaded
           [VStr "ABC123"; VStr "XYZ999"; VStr "ABC123"; VStr " low1 "]
           [VStr "M-0"; VStr "M-2"; VStr "M-1"; VStr "M-3"]
           scenario_sales 0 2 (VStr " abc123 ") (VStr "M-1"));
    try reflexivity.
  intros [|[|[|[|j']]]] Hj; (lia || done).
Defined.

(** * The window *)

(** ** Paths *)

Example basename_examples :
  basename "data/sales.csv" = "sales.csv" ∧ basename "sales.csv" = "sales.csv" ∧
  basename "/tmp/out/" = "" ∧ endswith "a.xlsx" ".xlsx" = true ∧
  endswith "a.xlsx" ".xls" = false ∧ endswith "csv" ".csv" = false.
Proof. vm_compute. done. Qed.

(** ** Handlers, field by field *)

Lemma andthen_fst (h1 h2 : Handler) app : ((h1 >> h2) app).1 = (h2 (h1 app).1).1.
Proof. unfold andthen. destruct (h1 app) as [app1 e1]. cbn [fst snd]. by destruct (h2 app1). Qed.

Lemma andthen_snd (h1 h2 : Handler) app :
  ((h1 >> h2) app).2 = (h1 app).2 ++ (h2 (h1 app).1).2.
Proof. unfold andthen. destruct (h1 app) as [app1 e1]. cbn [fst snd]. by destruct (h2 app1). Qed.

Lemma log_message_eq message level app :
  ∃ lines,
    log_message message level app =
      (MkWMSApp (sku_mapper app) (sales_data_df app) (processed_data_df app)
         (mapping_status_label app) (sales_status_label app) (process_button app)
         (save_button app) (log_text app ++ lines), []).
Proof.
  unfold log_message. repeat case_decide.
  1-3: by eexists [_].
  exists []. rewrite app_nil_r. by destruct app.
Qed.

Lemma log_message_sku_mapper m l app : sku_mapper (log_message m l app).1 = sku_mapper app.
Proof. by destruct (log_message_eq m l app) as [? ->]. Qed.

Lemma log_message_sales_data_df m l app :
  sales_data_df (log_message m l app).1 = sales_data_df app.
Proof. by destruct (log_message_eq m l app) as [? ->]. Qed.

Lemma log_message_processed_data_df m l app :
  processed_data_df (log_message m l app).1 = processed_data_df app.
Proof. by destruct (log_message_eq m l app) as [? ->]. Qed.

Lemma log_message_process_button m l app :
  process_button (log_message m l app).1 = process_button app.
Proof. by destruct (log_message_eq m l app) as [? ->]. Qed.

Lemma log_message_save_button m l app : save_button (log_message m l app).1 = save_button app.
Proof. by destruct (log_message_eq m l app) as [? ->]. Qed.

Lemma log_message_labels m l app :
  mapping_status_label (log_message m l app).1 = mapping_status_label app ∧
  sales_status_label (log_message m l app).1 = sales_status_label app.
Proof. by destruct (log_message_eq m l app) as [? ->]. Qed.

Lemma log_message_effects m l app : (log_message m l app).2 = [].
Proof. by destruct (log_message_eq m l app) as [? ->]. Qed.

(** [_check_enable_process_button] sets the process button from the
    mapper and the loaded table, and touches nothing else but the log
    area. *)
Lemma check_enable_eq app :
  ∃ lines,
    _check_enable_process_button app =
      (MkWMSApp (sku_mapper app) (sales_data_df app) (processed_data_df app)
         (mapping_status_label app) (sales_status_label app)
         (if bool_decide (sku_to_msku_map (sku_mapper app) ≠ ∅)
             && bool_decide (sales_data_df app ≠ None) then NORMAL else DISABLED)
         (save_button app) (log_text app ++ lines), []).
Proof.
  unfold _check_enable_process_button.
  destruct (bool_decide (sku_to_msku_map (sku_mapper app) ≠ ∅)
            && bool_decide (sales_data_df app ≠ None)).
  - unfold andthen. cbn [config_process_button].
    destruct (log_message_eq "Ready to process data. Click 'Process Sales Data'." "info"
                (MkWMSApp (sku_mapper app) (sales_data_df app) (processed_data_df app)
                   (mapping_status_label app) (sales_status_label app) NORMAL
                   (save_button app) (log_text app))) as [lines ->].
    by exists lines.
  - exists []. by rewrite app_nil_r.
Qed.

Ltac handler_fields :=
  repeat first
    [ rewrite andthen_fst
    | rewrite log_message_sku_mapper
    | rewrite log_message_sales_data_df
    | rewrite log_message_processed_data_df
    | rewrite log_message_process_button
    | rewrite log_message_save_button
    | progress cbn [fst snd emit set_sku_mapper set_sales_data_df set_processed_data_df
                    config_mapping_status_label config_sales_status_label
                    config_process_button config_save_button log_text_insert
                    sku_mapper sales_data_df processed_data_df process_button save_button
                    mapping_status_label sales_status_label log_text] ].

Lemma check_enable_fields app :
  sku_mapper (_check_enable_process_button app).1 = sku_mapper app ∧
  sales_data_df (_check_enable_process_button app).1 = sales_data_df app ∧
  processed_data_df (_check_enable_process_button app).1 = processed_data_df app ∧
  save_button (_check_enable_process_button app).1 = save_button app ∧
  (process_button (_check_enable_process_button app).1 = NORMAL ↔
   sku_to_msku_map (sku_mapper app) ≠ ∅ ∧ sales_data_df app ≠ None).
Proof.
  destruct (check_enable_eq app) as [lines ->]. cbn. repeat split; try done.
  - destruct (bool_decide (sku_to_msku_map (sku_mapper app) ≠ ∅)) eqn:H1; [|done].
    by apply bool_decide_eq_true in H1.
  - destruct (bool_decide (sku_to_msku_map (sku_mapper app) ≠ ∅)) eqn:H1; [|done].
    destruct (bool_decide (sales_data_df app ≠ None)) eqn:H2; [|done].
    by apply bool_decide_eq_true in H2.
  - intros [H1 H2]. by rewrite !bool_decide_eq_true_2.
Qed.

Lemma load_mapping_Raise_self read_csv self file_path e self' :
  val (load_mapping read_csv self file_path) = (Raise e, self') → self' = self.
Proof.
  unfold load_mapping. destruct (decide (file_path = "")); [by intros [= _ <-]|].
  destruct (read_csv file_path) as [mapping_df| |msg]; [|by intros [= _ <-]..].
  destruct (getitem "SKU" mapping_df); [destruct (getitem "MSKU" mapping_df)|];
    [done|by intros [= _ <-]..].
Qed.

Ltac invariant_done :=
  handler_fields; cbn [sku_to_msku_map processed_data];
  split_and!; try assumption; try (split; done).

Lemma load_mapping_file_invariant pd file_path app :
  window_invariant app → window_invariant (load_mapping_file pd file_path app).1.
Proof.
  intros (Hp & Hs & Hd). unfold load_mapping_file, window_invariant. cbv zeta.
  destruct (decide (file_path = "")); [invariant_done|].
  destruct (val (load_mapping (pd_read_csv pd) (sku_mapper app) file_path))
    as [[b|e] self'] eqn:Hr; cbn [fst snd].
  - apply load_mapping_Return in Hr as (df & skus & mskus & _ & _ & _ & _ & ->).
    rewrite !andthen_fst.
    match goal with |- context [_check_enable_process_button ?a] =>
      destruct (check_enable_fields a) as (H1 & H2 & H3 & H4 & H5);
      rewrite H1, H2, H3, H4, H5; clear H1 H2 H3 H4 H5 end.
    invariant_done.
  - apply load_mapping_Raise_self in Hr as ->. invariant_done.
Qed.

Lemma load_sales_file_invariant pd file_path app :
  window_invariant app → window_invariant (load_sales_file pd file_path app).1.
Proof.
  intros (Hp & Hs & Hd). unfold load_sales_file, window_invariant.
  destruct (decide (file_path = "")); [invariant_done|].
  destruct (read_sales pd file_path) as [df|e].
  - rewrite !andthen_fst.
    match goal with |- context [_check_enable_process_button ?a] =>
      destruct (check_enable_fields a) as (H1 & H2 & H3 & H4 & H5);
      rewrite H1, H2, H3, H4, H5; clear H1 H2 H3 H4 H5 end.
    invariant_done.
  - invariant_done.
Qed.

Lemma process_data_invariant app : window_invariant app → window_invariant (process_data app).1.
Proof.
  intros (Hp & Hs & Hd). unfold process_data, window_invariant. cbv zeta.
  destruct (sales_data_df app) as [sales|] eqn:Hsales.
  2:{ handler_fields. by rewrite Hsales in *. }
  destruct (decide (sku_to_msku_map (sku_mapper app) = ∅)) as [He|He].
  { handler_fields. by rewrite Hsales in *. }
  destruct (val (process_sales_data (sku_mapper app) sales "SKU" "MSKU"))
    as [[df'|e] st] eqn:Hr; cbn [fst snd].
  - apply process_sales_data_Return in Hr as (_ & skus & _ & _ & ->).
    handler_fields. cbn [sku_to_msku_map processed_data]. rewrite Hsales in *.
    split_and!; try done.
  - apply process_sales_data_Raise in Hr as [-> _].
    destruct e; handler_fields; by rewrite Hsales in *.
Qed.

Lemma save_processed_data_invariant pd file_path app :
  window_invariant app → window_invariant (save_processed_data pd file_path app).1.
Proof.
  intros (Hp & Hs & Hd). unfold save_processed_data, window_invariant.
  destruct (processed_data_df app) as [df|] eqn:Hdf.
  2:{ handler_fields. by rewrite Hdf in *. }
  destruct (decide (file_path = "")); [handler_fields; by rewrite Hdf in *|].
  destruct (endswith file_path ".csv");
    [destruct (df_to_csv pd file_path df)
    |destruct (endswith file_path ".xlsx"); [destruct (df_to_excel pd file_path df)|]];
    handler_fields; by rewrite Hdf in *.
Qed.

Lemma handler_invariant pd a app :
  window_invariant app → window_invariant (handler pd a app).1.
Proof.
  intros Hinv. destruct a; cbn [handler].
  - by apply load_mapping_file_invariant.
  - by apply load_sales_file_invariant.
  - by apply process_data_invariant.
  - by apply save_processed_data_invariant.
Qed.

(** X14.  Every handler keeps the buttons in step with what is loaded.
    From a window object in which the process button is enabled exactly
    when a non-empty mapping and a sales table are loaded, the save
    button exactly when there is a processed table, and the mapper's
    [processed_data] is the window's processed table, every sequence of
    clicks leads to a window object of which the same holds.  The blank
    window is such an object. *)
Theorem reachable_invariant pd start app :
  window_invariant start →
  reachable pd start app →
  (process_button app = NORMAL ↔
   sku_to_msku_map (sku_mapper app) ≠ ∅ ∧ sales_data_df app ≠ None) ∧
  (save_button app = NORMAL ↔ processed_data_df app ≠ None) ∧
  processed_data (sku_mapper app) = processed_data_df app.
Proof.
  intros Hstart Hreach. change (window_invariant app).
  induction Hreach as [|app a _ IH _]; [done|].
  by apply handler_invariant.
Qed.

Lemma blank_window_invariant : window_invariant blank_window.
Proof. vm_compute. repeat split; try done. by intros [_ ?]. Qed.

Lemma scenario_window_reachable : reachable scenario_pandas blank_window scenario_window.
Proof. unfold scenario_window. repeat (apply reachable_step || apply reachable_start); done. Qed.

Lemma reachable_invariant_witness :
  (process_button scenario_window = NORMAL ↔
   sku_to_msku_map (sku_mapper scenario_window) ≠ ∅ ∧ sales_data_df scenario_window ≠ None) ∧
  (save_button scenario_window = NORMAL ↔ processed_data_df scenario_window ≠ None) ∧
  processed_data (sku_mapper scenario_window) = processed_data_df scenario_window.
Proof.
  apply (reachable_invariant scenario_pandas blank_window scenario_window).
  - apply blank_window_invariant.
  - unfold scenario_window. repeat (apply reachable_step || apply reachable_start); reflexivity.
Defined.

(** The scenario window, field by field. *)
Example scenario_window_fields :
  process_button scenario_window = NORMAL ∧ save_button scenario_window = DISABLED ∧
  sales_data_df scenario_window = Some scenario_sales ∧
  mapping_status_label scenario_window = ("Mapping loaded: mapping.csv", "#2e7d32") ∧
  sales_status_label scenario_window = ("Sales data loaded: sales.csv", "#2e7d32").
Proof. vm_compute. done. Qed.

(** ** Processing from the window *)

(** X15.  In a window object whose buttons agree with what is loaded
    (the property every handler keeps), with the process button enabled,
    a click never meets the two warnings at the head of [process_data].
    When the loaded table has a [SKU] column the window gets the table
    [process_sales_data] returns, the save button is enabled and success
    is announced; when it has none, an error box is shown and the
    processed table and the save button stay as they were.  Either way
    the loaded table is kept. *)
Theorem process_data_when_enabled app :
  window_invariant app →
  process_button app = NORMAL →
  ∃ sales, sales_data_df app = Some sales ∧
    sales_data_df (process_data app).1 = Some sales ∧
    (has_column "SKU" sales = true →
       ∃ df st, val (process_sales_data (sku_mapper app) sales "SKU" "MSKU") = (Return df, st) ∧
         processed_data_df (process_data app).1 = Some df ∧
         save_button (process_data app).1 = NORMAL ∧
         showinfo "Success" "Sales data processed successfully! You can now save the results."
           ∈ (process_data app).2) ∧
    (has_column "SKU" sales = false →
       processed_data_df (process_data app).1 = processed_data_df app ∧
       save_button (process_data app).1 = save_button app ∧
       (process_data app).2 =
         [logged (ERROR, "SKU column 'SKU' not found in the sales data.");
          showerror "Error"
            ("Processing error: SKU column 'SKU' not found in the sales data." +:+ nl
             +:+ "Please ensure your sales data has a 'SKU' column.")]).
Proof.
  intros (Hp & _ & _) Hbutton.
  apply Hp in Hbutton as [Hmap Hsales].
  destruct (sales_data_df app) as [sales|] eqn:Hs; [|done].
  exists sales. split; [done|].
  unfold process_data. rewrite Hs. rewrite decide_False by done. cbv zeta.
  destruct (getitem "SKU" sales) as [skus|] eqn:Hsku.
  - rewrite (process_sales_data_val _ _ skus) by done. cbn [fst snd].
    split; [by handler_fields|]. split.
    + intros _. eexists _, _. split; [reflexivity|].
      split; [by handler_fields|]. split; [by handler_fields|].
      rewrite !andthen_snd, !log_message_effects.
      rewrite !elem_of_app. right. cbn. by apply list_elem_of_singleton.
    + intros Hcol. apply getitem_None in Hcol. congruence.
  - assert (process_sales_data (sku_mapper app) sales "SKU" "MSKU" =
            MkLogged (Raise (ValueError "SKU column 'SKU' not found in the sales data."),
                      (sku_mapper app, sales))
                     [(ERROR, "SKU column 'SKU' not found in the sales data.")]) as ->.
    { unfold process_sales_data. rewrite decide_False by done. by rewrite Hsku. }
    cbn [val out fst snd].
    split; [handler_fields; by destruct app|]. split.
    + intros Hcol. apply getitem_None in Hsku. congruence.
    + intros _. split; [by handler_fields|]. split; [by handler_fields|].
      rewrite !andthen_snd, !log_message_effects. reflexivity.
Qed.

Lemma process_data_when_enabled_witness :
  ∃ sales, sales_data_df scenario_window = Some sales ∧
    sales_data_df (process_data scenario_window).1 = Some sales.
Proof.
  destruct (process_data_when_enabled scenario_window)
    as (sales & H1 & H2 & _).
  - unfold scenario_window. apply handler_invariant, handler_invariant, blank_window_invariant.
  - reflexivity.
  - by exists sales.
Defined.

(** The processed table of the scenario window is the table of the
    scenario run, and the loaded table still has the combo SKU. *)
Example process_data_scenario :
  processed_data_df (process_data scenario_window).1 =
    Some (pass3 scenario_loaded scenario_sales
            [VStr " abc123 "; VStr "combo_special"; VNaN; VStr "UNKNOWN1"]) ∧
  cell "SKU" 1 scenario_sales = Some (VStr "combo_special") ∧
  sales_data_df (process_data scenario_window).1 = Some scenario_sales.
Proof. vm_compute. done. Qed.

(** X16.  Clicking Process again, without loading anything in between, gives
    the processed table of the first click: every click starts from the
    table as it was loaded. *)
Theorem process_data_twice app :
  processed_data_df (process_data (process_data app).1).1 =
  processed_data_df (process_data app).1.
Proof.
  assert (∀ a, sales_data_df a = None →
               processed_data_df (process_data a).1 = processed_data_df a) as Hnone.
  { intros a Ha. unfold process_data. rewrite Ha. by handler_fields. }
  assert (∀ a, sku_to_msku_map (sku_mapper a) = ∅ →
               processed_data_df (process_data a).1 = processed_data_df a) as Hempty.
  { intros a Ha. unfold process_data. destruct (sales_data_df a); [|by handler_fields].
    rewrite decide_True by done. by handler_fields. }
  destruct (sales_data_df app) as [sales|] eqn:Hs.
  2:{ apply Hnone. unfold process_data. rewrite Hs. by handler_fields. }
  destruct (decide (sku_to_msku_map (sku_mapper app) = ∅)) as [He|He].
  { apply Hempty. unfold process_data. rewrite Hs, decide_True by done. by handler_fields. }
  destruct (getitem "SKU" sales) as [skus|] eqn:Hsku.
  - assert (∀ a, sales_data_df a = Some sales →
                 sku_to_msku_map (sku_mapper a) = sku_to_msku_map (sku_mapper app) →
                 processed_data_df (process_data a).1 =
                   Some (pass3 (sku_mapper app) sales skus)) as Hrun.
    { intros a Ha Hm. unfold process_data. rewrite Ha, decide_False by (by rewrite Hm).
      cbv zeta. rewrite (process_sales_data_val _ _ skus) by (by rewrite ?Hm).
      handler_fields. f_equal. unfold pass3, pass2, pass1, resolve, identify_and_map_sku.
      by rewrite Hm. }
    rewrite (Hrun app Hs eq_refl). apply Hrun.
    + unfold process_data. rewrite Hs, decide_False by done. cbv zeta.
      rewrite (process_sales_data_val _ _ skus) by done. by handler_fields.
    + unfold process_data. rewrite Hs, decide_False by done. cbv zeta.
      rewrite (process_sales_data_val _ _ skus) by done. by handler_fields.
  - assert (process_sales_data (sku_mapper app) sales "SKU" "MSKU" =
            MkLogged (Raise (ValueError "SKU column 'SKU' not found in the sales data."),
                      (sku_mapper app, sales))
                     [(ERROR, "SKU column 'SKU' not found in the sales data.")]) as Hr.
    { unfold process_sales_data. rewrite decide_False by done. by rewrite Hsku. }
    assert (process_data app =
            ((emit [logged (ERROR, "SKU column 'SKU' not found in the sales data.")] >>
              set_sku_mapper (sku_mapper app) >>
              log_message "Processing error: SKU column 'SKU' not found in the sales data."
                "error" >>
              emit [showerror "Error"
                      ("Processing error: SKU column 'SKU' not found in the sales data." +:+ nl
                       +:+ "Please ensure your sales data has a 'SKU' column.")]) app)) as Hpd.
    { unfold process_data. rewrite Hs, decide_False by done. cbv zeta. by rewrite Hr. }
    set (app1 := (process_data app).1).
    assert (sales_data_df app1 = Some sales ∧ sku_mapper app1 = sku_mapper app ∧
            processed_data_df app1 = processed_data_df app) as (Hs1 & Hm1 & Hp1).
    { unfold app1. rewrite Hpd. by handler_fields. }
    unfold process_data at 1. rewrite Hs1, Hm1, decide_False by done. cbv zeta.
    rewrite Hr. cbn [val out fst snd]. by handler_fields.
Qed.

(** ** What the handlers leave alone *)

(** X17.  The loaded table changes only when a sales file is read: no other
    click, and no failed or cancelled load, touches it.  In particular
    processing does not write the combo placeholder into it. *)
Theorem sales_data_df_frame pd a app :
  sales_data_df (handler pd a app).1 = sales_data_df app ∨
  ∃ file_path df, a = ClickLoadSales file_path ∧ file_path ≠ "" ∧
    read_sales pd file_path = inl df ∧ sales_data_df (handler pd a app).1 = Some df.
Proof.
  destruct a as [p|p| |p]; cbn [handler].
  - left. unfold load_mapping_file. cbv zeta.
    destruct (decide (p = "")); [by handler_fields|].
    destruct ((val (load_mapping (pd_read_csv pd) (sku_mapper app) p)).1).
    + rewrite !andthen_fst.
      match goal with |- context [_check_enable_process_button ?a] =>
        destruct (check_enable_fields a) as (_ & H2 & _) end.
      rewrite H2. by handler_fields.
    + by handler_fields.
  - unfold load_sales_file. destruct (decide (p = "")); [left; by handler_fields|].
    destruct (read_sales pd p) as [df|e] eqn:Hread; [|left; by handler_fields].
    right. exists p, df. split; [done|]. split; [done|]. split; [done|].
    rewrite !andthen_fst.
    match goal with |- context [_check_enable_process_button ?a] =>
      destruct (check_enable_fields a) as (_ & H2 & _) end.
    rewrite H2. by handler_fields.
  - left. unfold process_data. cbv zeta.
    destruct (sales_data_df app) as [sales|] eqn:Hs; [|handler_fields; by rewrite Hs].
    destruct (decide (sku_to_msku_map (sku_mapper app) = ∅)); [handler_fields; by rewrite Hs|].
    destruct ((val (process_sales_data (sku_mapper app) sales "SKU" "MSKU")).1) as [df|[]];
      handler_fields; by rewrite Hs.
  - left. unfold save_processed_data.
    destruct (processed_data_df app) as [df|]; [|by handler_fields].
    destruct (decide (p = "")); [by handler_fields|].
    destruct (endswith p ".csv");
      [destruct (df_to_csv pd p df)
      |destruct (endswith p ".xlsx"); [destruct (df_to_excel pd p df)|]];
      by handler_fields.
Qed.

(** X18.  The processed table and the save button change only on a click on
    Process: loading another mapping or another sales file neither
    clears nor updates them, so Save then still writes the table
    processed from the earlier data. *)
Theorem processed_data_df_frame pd a app :
  a ≠ ClickProcess →
  processed_data_df (handler pd a app).1 = processed_data_df app ∧
  save_button (handler pd a app).1 = save_button app.
Proof.
  intros Ha. destruct a as [p|p| |p]; [| |done|]; cbn [handler].
  - unfold load_mapping_file. cbv zeta.
    destruct (decide (p = "")); [by handler_fields|].
    destruct ((val (load_mapping (pd_read_csv pd) (sku_mapper app) p)).1).
    + rewrite !andthen_fst.
      match goal with |- context [_check_enable_process_button ?a] =>
        destruct (check_enable_fields a) as (_ & _ & H3 & H4 & _) end.
      rewrite H3, H4. by handler_fields.
    + by handler_fields.
  - unfold load_sales_file. destruct (decide (p = "")); [by handler_fields|].
    destruct (read_sales pd p) as [df|e]; [|by handler_fields].
    rewrite !andthen_fst.
    match goal with |- context [_check_enable_process_button ?a] =>
      destruct (check_enable_fields a) as (_ & _ & H3 & H4 & _) end.
    rewrite H3, H4. by handler_fields.
  - unfold save_processed_data.
    destruct (processed_data_df app) as [df|] eqn:Hdf; [|handler_fields; by rewrite Hdf].
    destruct (decide (p = "")); [handler_fields; by rewrite Hdf|].
    destruct (endswith p ".csv");
      [destruct (df_to_csv pd p df)
      |destruct (endswith p ".xlsx"); [destruct (df_to_excel pd p df)|]];
      handler_fields; by rewrite Hdf.
Qed.

Lemma processed_data_df_frame_witness :
  processed_data_df (handler scenario_pandas (ClickLoadSales "other.csv")
                       (process_data scenario_window).1).1 =
    processed_data_df (process_data scenario_window).1 ∧
  save_button (handler scenario_pandas (ClickLoadSales "other.csv")
                 (process_data scenario_window).1).1 =
    save_button (process_data scenario_window).1.
Proof.
  apply (processed_data_df_frame scenario_pandas (ClickLoadSales "other.csv")). discriminate.
Defined.

(** ** Saving *)

(** X19.  Only the extensions [.csv] and [.xlsx] write a file.  For any other
    path nothing is written, and yet the handler logs the save and
    announces success, as it does after a write that returned. *)
Theorem save_processed_data_effects pd file_path app df :
  processed_data_df app = Some df →
  file_path ≠ "" →
  let effects := (save_processed_data pd file_path app).2 in
  let success := showinfo "Success" ("Processed data saved to:" +:+ nl +:+ file_path) in
  (endswith file_path ".csv" = true → df_to_csv pd file_path df = None →
     effects = [to_csv file_path df; success]) ∧
  (endswith file_path ".csv" = false → endswith file_path ".xlsx" = true →
     df_to_excel pd file_path df = None →
     effects = [to_excel file_path df; success]) ∧
  (endswith file_path ".csv" = false → endswith file_path ".xlsx" = false →
     effects = [success] ∧
     log_text (save_processed_data pd file_path app).1 =
       log_text app ++ [("[INFO] Processed data saved to " +:+ basename file_path +:+ nl,
                         "info")]).
Proof.
  intros Hdf Hp. cbv zeta. unfold save_processed_data. rewrite Hdf, decide_False by done.
  split; [|split].
  - intros -> ->. rewrite !andthen_snd, log_message_effects. reflexivity.
  - intros -> -> ->. rewrite !andthen_snd, log_message_effects. reflexivity.
  - intros -> ->. split.
    + rewrite !andthen_snd, log_message_effects. reflexivity.
    + rewrite !andthen_fst. reflexivity.
Qed.

Lemma save_processed_data_effects_witness :
  (save_processed_data scenario_pandas "out.txt" (process_data scenario_window).1).2 =
    [showinfo "Success" ("Processed data saved to:" +:+ nl +:+ "out.txt")].
Proof.
  destruct (save_processed_data_effects scenario_pandas "out.txt"
              (process_data scenario_window).1
              (pass3 scenario_loaded scenario_sales
                 [VStr " abc123 "; VStr "combo_special"; VNaN; VStr "UNKNOWN1"]))
    as (_ & _ & H).
  - vm_compute. reflexivity.
  - discriminate.
  - apply H; reflexivity.
Defined.

(** A write that raises is reported in an error box and changes nothing
    in the window but its log. *)
Example save_processed_data_write_fails :
  (save_processed_data
     (MkPandas (λ _, NotFound) (λ _, NotFound) (λ p, p) (λ _ _, Some "disk full") (λ _ _, None))
     "out.csv"
     (MkWMSApp scenario_mapper None (Some scenario_sales_done) ("", "") ("", "")
        DISABLED NORMAL [])).2 =
    [to_csv "out.csv" scenario_sales_done;
     showerror "Error" "Failed to save processed data: disk full"].
Proof. vm_compute. reflexivity. Qed.

(** ** Loads that fail *)

(** X20.  When reading a sales file fails, for a missing or unreadable file or
    for a path that ends in none of [.csv], [.xlsx], [.xls], the label
    reports the error and an error box is shown, but the window keeps the
    table loaded before and the state of both buttons. *)
Theorem load_sales_file_failure pd file_path app e :
  file_path ≠ "" →
  read_sales pd file_path = inr e →
  let app' := (load_sales_file pd file_path app).1 in
  sales_data_df app' = sales_data_df app ∧
  sku_mapper app' = sku_mapper app ∧
  processed_data_df app' = processed_data_df app ∧
  process_button app' = process_button app ∧
  save_button app' = save_button app ∧
  sales_status_label app' = ("Error loading sales data!", "#d32f2f") ∧
  (load_sales_file pd file_path app).2 =
    [showerror "Error" ("Failed to load sales data: " +:+ e)].
Proof.
  intros Hp Hread. cbv zeta. unfold load_sales_file.
  rewrite decide_False, Hread by done.
  repeat split; try by handler_fields.
  all: try (rewrite !andthen_fst; by rewrite (proj2 (log_message_labels _ _ _))).
  all: rewrite !andthen_snd, log_message_effects; reflexivity.
Qed.

Lemma load_sales_file_failure_witness :
  sales_data_df (load_sales_file scenario_pandas "sales.txt" scenario_window).1 =
    sales_data_df scenario_window ∧
  (load_sales_file scenario_pandas "sales.txt" scenario_window).2 =
    [showerror "Error"
       "Failed to load sales data: Unsupported file type. Please select a CSV or Excel file."].
Proof.
  destruct (load_sales_file_failure scenario_pandas "sales.txt" scenario_window
              "Unsupported file type. Please select a CSV or Excel file.")
    as (H1 & _ & _ & _ & _ & _ & H7).
  - discriminate.
  - reflexivity.
  - split; [exact H1 | exact H7].
Defined.

(** A path with another extension is refused without a read. *)
Lemma read_sales_unsupported pd file_path :
  endswith file_path ".csv" = false →
  endswith file_path ".xlsx" = false →
  endswith file_path ".xls" = false →
  read_sales pd file_path = inr "Unsupported file type. Please select a CSV or Excel file.".
Proof. intros H1 H2 H3. unfold read_sales. by rewrite H1, H2, H3. Qed.

(** X21.  When loading a mapping fails, the mapper in the window is the mapper
    as it was, with the mapping loaded before still in use, and the
    process button is not changed, while the label reports the error. *)
Theorem load_mapping_file_failure pd file_path app e self' :
  file_path ≠ "" →
  val (load_mapping (pd_read_csv pd) (sku_mapper app) file_path) = (Raise e, self') →
  let app' := (load_mapping_file pd file_path app).1 in
  sku_mapper app' = sku_mapper app ∧
  sales_data_df app' = sales_data_df app ∧
  processed_data_df app' = processed_data_df app ∧
  process_button app' = process_button app ∧
  save_button app' = save_button app ∧
  mapping_status_label app' = ("Error loading mapping!", "#d32f2f") ∧
  showerror "Error" ("Failed to load mapping: " +:+ str_exn e)
    ∈ (load_mapping_file pd file_path app).2.
Proof.
  intros Hp Hr. cbv zeta. unfold load_mapping_file. rewrite decide_False by done.
  cbv zeta. rewrite Hr. cbn [fst snd].
  apply load_mapping_Raise_self in Hr as ->.
  repeat split; try by handler_fields.
  all: try (rewrite !andthen_fst; by rewrite (proj1 (log_message_labels _ _ _))).
  all: rewrite !andthen_snd, log_message_effects, !elem_of_app; right;
    by apply list_elem_of_singleton.
Qed.

Lemma load_mapping_file_failure_witness :
  sku_mapper (load_mapping_file scenario_pandas "broken.csv" scenario_window).1 =
    sku_mapper scenario_window ∧
  process_button (load_mapping_file scenario_pandas "broken.csv" scenario_window).1 =
    process_button scenario_window.
Proof.
  destruct (load_mapping_file_failure scenario_pandas "broken.csv" scenario_window
              (ValueError "Error loading mapping file: Error tokenizing data.")
              (sku_mapper scenario_window))
    as (H1 & _ & _ & H4 & _).
  - discriminate.
  - vm_compute. reflexivity.
  - split; [exact H1 | exact H4].
Defined.
